(** * Baseline environment stacks: construct trees and their properties

    The repository declares CDK stacks.  A stack constructor receives a scope
    (the [App]), an id and a props object, and populates the construct tree
    below the scope by [new C(this, id, props)] calls and by mutator calls on
    the constructs it has just created.

    The development below embeds that as state passing over the construct
    tree of the app:
    - every construct class the stacks instantiate is a record holding the
      props the source passes plus whatever later mutator calls add;
    - a reference to a construct (a TypeScript object reference) is the path
      of the construct in the tree, so that two names of one object alias;
    - deploy-time values (ARNs, names) are kept symbolic as tokens;
    - constructors run in a state-and-error monad over the tree: creating a
      construct under an id that is already taken in its scope is an error.
*)

From stdpp Require Import base strings list gmap.

Open Scope string_scope.

(** ** Core values *)

(** Path of a construct: the id of its stack and its id inside the stack. *)
Record Ref := mkRef { ref_stack : string; ref_id : string }.

Inductive DurationUnit := Seconds | Minutes | Days.

Module Duration.
Record t := mk { amount : Z; unit : DurationUnit }.
Definition seconds (n : Z) : t := mk n Seconds.
Definition minutes (n : Z) : t := mk n Minutes.
Definition days (n : Z) : t := mk n Days.
Definition toSeconds (d : t) : Z :=
    match unit d with
    | Seconds => amount d
    | Minutes => amount d * 60
    | Days => amount d * 86400
    end.
End Duration.

(** Deploy-time attributes of constructs, resolved by the provider. *)
Inductive Token :=
| bucketArn (bucket : Ref)
| loadBalancerArn (lb : Ref)
| attrArn (cfn : Ref)
| clusterName (cluster : Ref)
| serviceName (service_of : Ref).

(** Strings that may contain tokens; [Cat] is the [+] of the source. *)
Inductive TokStr :=
| Lit (s : string)
| Tok (t : Token)
| Cat (a b : TokStr).

Fixpoint resolve (env : Token -> string) (s : TokStr) : string :=
  match s with
  | Lit s => s
  | Tok t => env t
  | Cat a b => resolve env a +:+ resolve env b
  end.

(** [bucket.arnForObjects(keyPattern)] is the bucket ARN followed by a slash
    and the key pattern. *)
Definition arnForObjects (bucket : Ref) (keyPattern : string) : TokStr :=
  Cat (Tok (bucketArn bucket)) (Cat (Lit "/") (Lit keyPattern)).

Record Tag := mkTag {
  tag_key : string;
  tag_value : string;
  applyToLaunchedInstances : option bool
}.

Record SubnetSelection := selectSubnets {
  sel_vpc : Ref;
  subnetGroupName : string
}.

(** ** aws-iam *)

Inductive Effect := ALLOW | DENY.

Inductive Principal :=
| AnyPrincipal
| ServicePrincipal (service : string).

Module PolicyStatement.
Record t := mk {
    effect : Effect;
    principals : list Principal;
    actions : list string;
    resources : list TokStr;
    conditions : list (string * list (string * string))
  }.
End PolicyStatement.

Module Role.
Record t := mk {
    assumedBy : Principal;
    path : string;
    managedPolicies : list string
  }.
End Role.

(** ** aws-ec2 *)

Inductive Peer :=
| anyIpv4
| securityGroupPeer (sg : Ref).

Inductive Port :=
| tcp (port : Z)
| allTcp.

Module SecurityGroup.
Record t := mk {
    vpc : Ref;
    allowAllOutbound : option bool;
    ingressRules : list (Peer * Port);
    egressRules : list (Peer * Port)
  }.
Definition create (vpc : Ref) (allowAllOutbound : option bool) : t :=
    mk vpc allowAllOutbound [] [].
Definition addIngressRule (peer : Peer) (port : Port) (g : t) : t :=
    mk (vpc g) (allowAllOutbound g) (ingressRules g ++ [(peer, port)]) (egressRules g).
Definition addEgressRule (peer : Peer) (port : Port) (g : t) : t :=
    mk (vpc g) (allowAllOutbound g) (ingressRules g) (egressRules g ++ [(peer, port)]).
End SecurityGroup.

Inductive InstanceClass := T3.
Inductive InstanceSize := MICRO.
Inductive AmazonLinuxGeneration := AMAZON_LINUX_2.

Module UserData.
Record t := mk { shebang : string; commands : list string }.
Definition forLinux (shebang : string) : t := mk shebang [].
Definition addCommands (cmds : list string) (u : t) : t :=
    mk (shebang u) (commands u ++ cmds).
End UserData.

Module Instance.
Record t := mk {
    vpc : Ref;
    vpcSubnets : SubnetSelection;
    instanceType : InstanceClass * InstanceSize;
    machineImage : AmazonLinuxGeneration;
    securityGroup : Ref;
    role : Ref;
    userData : UserData.t
  }.
End Instance.

(** ** aws-s3 *)

Inductive BucketAccessControl := PRIVATE.
Inductive StorageClass := GLACIER.
Inductive RemovalPolicy := DESTROY.
Inductive BucketEncryption := KMS | S3_MANAGED.
Inductive BlockPublicAccess := BLOCK_ALL.
Inductive HttpMethods := GET | HEAD.

Record Transition := mkTransition {
  storageClass : StorageClass;
  transitionAfter : Duration.t
}.

Record LifecycleRule := mkLifecycleRule {
  lr_enabled : option bool;
  expiration : option Duration.t;
  transitions : list Transition
}.

Record CorsRule := mkCorsRule {
  allowedOrigins : list string;
  allowedMethods : list HttpMethods
}.

Module Bucket.
Record t := mk {
    accessControl : option BucketAccessControl;
    lifecycleRules : list LifecycleRule;
    removalPolicy : option RemovalPolicy;
    versioned : option bool;
    encryptionKey : option Ref;
    encryption : option BucketEncryption;
    cors : list CorsRule;
    blockPublicAccess : option BlockPublicAccess;
    resourcePolicy : list PolicyStatement.t
  }.
Definition addToResourcePolicy (s : PolicyStatement.t) (b : t) : t :=
    mk (accessControl b) (lifecycleRules b) (removalPolicy b) (versioned b)
       (encryptionKey b) (encryption b) (cors b) (blockPublicAccess b)
       (resourcePolicy b ++ [s]).
End Bucket.

(** ** aws-autoscaling *)

Inductive HealthCheck := elb (grace : Duration.t).

Record CpuUtilizationScalingProps := mkCpuScaling {
  targetUtilizationPercent : Z
}.

Module AutoScalingGroup.
Record t := mk {
  minCapacity : Z;
  maxCapacity : Z;
  vpc : Ref;
  vpcSubnets : SubnetSelection;
  instanceType : InstanceClass * InstanceSize;
  machineImage : AmazonLinuxGeneration;
  securityGroup : Ref;
  role : Ref;
  userData : UserData.t;
  healthCheck : HealthCheck;
  scalingPolicies : list (string * CpuUtilizationScalingProps);
  targetGroups : list Ref
}.
Definition scaleOnCpuUtilization (id : string) (p : CpuUtilizationScalingProps) (g : t) : t :=
  mk (minCapacity g) (maxCapacity g) (vpc g) (vpcSubnets g) (instanceType g)
     (machineImage g) (securityGroup g) (role g) (userData g) (healthCheck g)
     (scalingPolicies g ++ [(id, p)]) (targetGroups g).
Definition attachToApplicationTargetGroup (tg : Ref) (g : t) : t :=
  mk (minCapacity g) (maxCapacity g) (vpc g) (vpcSubnets g) (instanceType g)
     (machineImage g) (securityGroup g) (role g) (userData g) (healthCheck g)
     (scalingPolicies g) (targetGroups g ++ [tg]).
End AutoScalingGroup.

(** ** aws-elasticloadbalancingv2 *)

Inductive ApplicationProtocol := HTTP.
Inductive TargetType := INSTANCE.
Inductive HttpCodeElb := ELB_4XX_COUNT | ELB_5XX_COUNT.

Record ListenerProps := mkListener {
  l_port : Z;
  l_open : bool;
  defaultTargetGroups : list Ref
}.

Module ApplicationLoadBalancer.
Record t := mk {
  vpc : Ref;
  internetFacing : bool;
  securityGroup : Ref;
  vpcSubnets : SubnetSelection;
  accessLogs : option Ref;
  listeners : list (string * ListenerProps)
}.
Definition logAccessLogs (bucket : Ref) (lb : t) : t :=
  mk (vpc lb) (internetFacing lb) (securityGroup lb) (vpcSubnets lb)
     (Some bucket) (listeners lb).
Definition addListener (id : string) (p : ListenerProps) (lb : t) : t :=
  mk (vpc lb) (internetFacing lb) (securityGroup lb) (vpcSubnets lb)
     (accessLogs lb) (listeners lb ++ [(id, p)]).
End ApplicationLoadBalancer.

Record TargetHealthCheck := mkHealthCheck {
  hc_enabled : bool;
  hc_path : string
}.

Module ApplicationTargetGroup.
Record t := mk {
  vpc : Ref;
  port : Z;
  protocol : ApplicationProtocol;
  targetType : TargetType;
  healthCheck : TargetHealthCheck;
  deregistrationDelay : Duration.t
}.
End ApplicationTargetGroup.

(** ** aws-cloudfront, aws-cloudfront-origins *)

Inductive Origin := S3Origin (bucket : Ref).
Inductive OriginRequestPolicy := CORS_S3_ORIGIN.

Module Distribution.
Record t := mk {
  origin : Origin;
  originRequestPolicy : OriginRequestPolicy
}.
End Distribution.

(** ** aws-ecs, aws-ecs-patterns *)

Module Cluster.
Record t := mk {
  vpc : Ref;
  containerInsights : bool
}.
End Cluster.

Inductive ContainerImage := fromRegistry (name : string).

(** The pattern owns a service and a target group; [targetGroupAttributes]
    collects the [targetGroup.setAttribute] calls. *)
Module ApplicationLoadBalancedFargateService.
Record t := mk {
  cluster : Ref;
  loadBalancer : Ref;
  taskSubnets : SubnetSelection;
  image : ContainerImage;
  targetGroupAttributes : list (string * string)
}.
Definition targetGroup_setAttribute (key value : string) (s : t) : t :=
  mk (cluster s) (loadBalancer s) (taskSubnets s) (image s)
     (targetGroupAttributes s ++ [(key, value)]).
End ApplicationLoadBalancedFargateService.

(** ** aws-cloudwatch, aws-cloudwatch-actions *)

Inductive Statistic := AVERAGE | SUM.

Inductive ComparisonOperator :=
| GREATER_THAN_OR_EQUAL_TO_THRESHOLD
| LESS_THAN_THRESHOLD.

(** Where a metric comes from: a [metricXxx] method of a construct, or a
    [new cw.Metric] with explicit name, namespace and dimensions. *)
Inductive MetricSource :=
| service_metricCpuUtilization (service_of : Ref)
| newMetric (metricName namespace : string) (dimensions : list (string * TokStr))
| metricTargetResponseTime (lb : Ref)
| metricHttpCodeElb (lb : Ref) (code : HttpCodeElb)
| targetGroup_metricHealthyHostCount (service_of : Ref).

Module Metric.
Record t := mk {
  source : MetricSource;
  period : Duration.t;
  statistic : Statistic
}.
End Metric.

Inductive AlarmAction := SnsAction (topic : Ref).

Record CreateAlarmOptions := mkAlarmOptions {
  evaluationPeriods : Z;
  datapointsToAlarm : option Z;
  threshold : Z;
  comparisonOperator : ComparisonOperator;
  actionsEnabled : bool
}.

Module Alarm.
Record t := mk {
  metric : Metric.t;
  options : CreateAlarmOptions;
  alarmActions : list AlarmAction
}.
Definition addAlarmAction (a : AlarmAction) (al : t) : t :=
  mk (metric al) (options al) (alarmActions al ++ [a]).
End Alarm.

(** ** aws-wafv2 *)

Inductive DefaultAction := allow | block.
Inductive OverrideAction := count | none.

Record VisibilityConfig := mkVisibility {
  cloudWatchMetricsEnabled : bool;
  vc_metricName : string;
  sampledRequestsEnabled : bool
}.

Inductive Statement :=
| managedRuleGroupStatement (vendorName name : string).

Record Rule := mkRule {
  priority : Z;
  overrideAction : OverrideAction;
  rule_visibilityConfig : VisibilityConfig;
  rule_name : string;
  statement : Statement
}.

Module CfnWebACL.
Record t := mk {
  defaultAction : DefaultAction;
  name : string;
  scope : string;
  visibilityConfig : VisibilityConfig;
  rules : list Rule
}.
End CfnWebACL.

Module CfnWebACLAssociation.
Record t := mk {
  resourceArn : TokStr;
  webAclArn : TokStr
}.
End CfnWebACLAssociation.

(** ** The construct tree *)

(** What a construct is.  [RVpc], [RKey] and [RTopic] are constructs of other
    stacks that reach the stacks of this repository through their props;
    the sources at hand never look inside them. *)
Inductive Resource :=
| RVpc
| RKey
| RTopic
| RSecurityGroup (x : SecurityGroup.t)
| RBucket (x : Bucket.t)
| RRole (x : Role.t)
| RInstance (x : Instance.t)
| RAutoScalingGroup (x : AutoScalingGroup.t)
| RApplicationLoadBalancer (x : ApplicationLoadBalancer.t)
| RApplicationTargetGroup (x : ApplicationTargetGroup.t)
| RDistribution (x : Distribution.t)
| RCluster (x : Cluster.t)
| RApplicationLoadBalancedFargateService (x : ApplicationLoadBalancedFargateService.t)
| RAlarm (x : Alarm.t)
| RCfnWebACL (x : CfnWebACL.t)
| RCfnWebACLAssociation (x : CfnWebACLAssociation.t).

Definition className (r : Resource) : string :=
  match r with
  | RVpc => "ec2.Vpc"
  | RKey => "kms.Key"
  | RTopic => "sns.Topic"
  | RSecurityGroup _ => "ec2.SecurityGroup"
  | RBucket _ => "s3.Bucket"
  | RRole _ => "iam.Role"
  | RInstance _ => "ec2.Instance"
  | RAutoScalingGroup _ => "autoscaling.AutoScalingGroup"
  | RApplicationLoadBalancer _ => "elbv2.ApplicationLoadBalancer"
  | RApplicationTargetGroup _ => "elbv2.ApplicationTargetGroup"
  | RDistribution _ => "cloudfront.Distribution"
  | RCluster _ => "ecs.Cluster"
  | RApplicationLoadBalancedFargateService _ =>
      "ecs_patterns.ApplicationLoadBalancedFargateService"
  | RAlarm _ => "cw.Alarm"
  | RCfnWebACL _ => "wafv2.CfnWebACL"
  | RCfnWebACLAssociation _ => "wafv2.CfnWebACLAssociation"
  end.

Record Construct := mkConstruct {
  c_id : string;
  c_tags : list Tag;
  c_resource : Resource
}.

Record Environment := mkEnvironment {
  account : option string;
  region : option string
}.

(** [cdk.StackProps], which every props interface of the repository
    extends and every constructor hands to [super]. *)
Module StackProps.
Record t := mk {
  description : option string;
  env : option Environment;
  stackName : option string;
  tags : list (string * string);
  terminationProtection : option bool
}.
End StackProps.

Record StackNode := mkStackNode {
  st_props : StackProps.t;
  st_children : list Construct
}.

(** The app: its stacks by id. *)
Abbreviation App := (gmap string StackNode).

Inductive CdkError :=
| DuplicateId (scope id : string)
| NoSuchScope (scope : string)
| NoSuchConstruct (r : Ref)
| NotA (cls : string) (r : Ref).

Inductive Result (A : Type) :=
| OK (a : A)
| Throw (e : CdkError).
Arguments OK {A} a.
Arguments Throw {A} e.

(** State and errors: a constructor transforms the app or throws. *)
Definition M (A : Type) : Type := App -> Result (A * App).

Definition ret {A} (a : A) : M A := fun app => OK (a, app).

Definition bind {A B} (m : M A) (k : A -> M B) : M B :=
  fun app =>
    match m app with
    | OK (a, app') => k a app'
    | Throw e => Throw e
    end.

Notation "x <- m ;; k" := (bind m (fun x => k))
  (at level 100, m at next level, right associativity).
Notation "m ;;; k" := (bind m (fun _ => k))
  (at level 100, right associativity).

Fixpoint find_child (id : string) (l : list Construct) : option Construct :=
  match l with
  | [] => None
  | c :: l' => if String.eqb (c_id c) id then Some c else find_child id l'
  end.

Fixpoint replace_child (c' : Construct) (l : list Construct) : list Construct :=
  match l with
  | [] => []
  | c :: l' =>
      if String.eqb (c_id c) (c_id c') then c' :: l' else c :: replace_child c' l'
  end.

(** Run a step on the node of one stack of the app. *)
Definition on_stack {A} (this : string)
    (f : StackNode -> Result (A * StackNode)) : M A :=
  fun app =>
    match app !! this with
    | None => Throw (NoSuchScope this)
    | Some st =>
        match f st with
        | OK (a, st') => OK (a, <[this := st']> app)
        | Throw e => Throw e
        end
    end.

(** [super(scope, id, props)] of a stack: a new, empty stack under the app. *)
Definition Stack_super (id : string) (props : StackProps.t) : M string :=
  fun app =>
    match app !! id with
    | Some _ => Throw (DuplicateId "App" id)
    | None => OK (id, <[id := mkStackNode props []]> app)
    end.

(** [new C(this, id, props)]: a new child of [this]; ids are unique within
    a scope. *)
Definition new_ (this id : string) (r : Resource) : M Ref :=
  on_stack this (fun st =>
    match find_child id (st_children st) with
    | Some _ => Throw (DuplicateId this id)
    | None =>
        OK (mkRef this id,
            mkStackNode (st_props st) (st_children st ++ [mkConstruct id [] r]))
    end).

(** A mutator call on the construct that [r] refers to. *)
Definition modify (r : Ref) (f : Construct -> Result Construct) : M unit :=
  on_stack (ref_stack r) (fun st =>
    match find_child (ref_id r) (st_children st) with
    | None => Throw (NoSuchConstruct r)
    | Some c =>
        match f c with
        | OK c' => OK (tt, mkStackNode (st_props st) (replace_child c' (st_children st)))
        | Throw e => Throw e
        end
    end).

Definition lookup_construct (app : App) (r : Ref) : option Construct :=
  match app !! ref_stack r with
  | None => None
  | Some st => find_child (ref_id r) (st_children st)
  end.

Definition lookup_resource (app : App) (r : Ref) : option Resource :=
  c_resource <$> lookup_construct app r.

Definition set_resource (c : Construct) (r : Resource) : Construct :=
  mkConstruct (c_id c) (c_tags c) r.

(** [Tags.of(x).add(key, value, props)] *)
Definition Tags_add (x : Ref) (key value : string)
    (applyToLaunched : option bool) : M unit :=
  modify x (fun c =>
    OK (mkConstruct (c_id c) (c_tags c ++ [mkTag key value applyToLaunched])
          (c_resource c))).

(** *** Mutator methods, dispatched on the class of the receiver *)

Definition SecurityGroup_call (f : SecurityGroup.t -> SecurityGroup.t) (r : Ref) : M unit :=
  modify r (fun c =>
    match c_resource c with
    | RSecurityGroup g => OK (set_resource c (RSecurityGroup (f g)))
    | _ => Throw (NotA "ec2.SecurityGroup" r)
    end).

Definition addIngressRule (sg : Ref) (peer : Peer) (port : Port) : M unit :=
  SecurityGroup_call (SecurityGroup.addIngressRule peer port) sg.

Definition addEgressRule (sg : Ref) (peer : Peer) (port : Port) : M unit :=
  SecurityGroup_call (SecurityGroup.addEgressRule peer port) sg.

Definition addToResourcePolicy (bucket : Ref) (s : PolicyStatement.t) : M unit :=
  modify bucket (fun c =>
    match c_resource c with
    | RBucket b => OK (set_resource c (RBucket (Bucket.addToResourcePolicy s b)))
    | _ => Throw (NotA "s3.Bucket" bucket)
    end).

Definition AutoScalingGroup_call (f : AutoScalingGroup.t -> AutoScalingGroup.t)
    (r : Ref) : M unit :=
  modify r (fun c =>
    match c_resource c with
    | RAutoScalingGroup g => OK (set_resource c (RAutoScalingGroup (f g)))
    | _ => Throw (NotA "autoscaling.AutoScalingGroup" r)
    end).

Definition scaleOnCpuUtilization (asg : Ref) (id : string)
    (p : CpuUtilizationScalingProps) : M unit :=
  AutoScalingGroup_call (AutoScalingGroup.scaleOnCpuUtilization id p) asg.

Definition attachToApplicationTargetGroup (asg tg : Ref) : M unit :=
  AutoScalingGroup_call (AutoScalingGroup.attachToApplicationTargetGroup tg) asg.

Definition ApplicationLoadBalancer_call
    (f : ApplicationLoadBalancer.t -> ApplicationLoadBalancer.t) (r : Ref) : M unit :=
  modify r (fun c =>
    match c_resource c with
    | RApplicationLoadBalancer lb => OK (set_resource c (RApplicationLoadBalancer (f lb)))
    | _ => Throw (NotA "elbv2.ApplicationLoadBalancer" r)
    end).

Definition logAccessLogs (lb bucket : Ref) : M unit :=
  ApplicationLoadBalancer_call (ApplicationLoadBalancer.logAccessLogs bucket) lb.

Definition addListener (lb : Ref) (id : string) (p : ListenerProps) : M unit :=
  ApplicationLoadBalancer_call (ApplicationLoadBalancer.addListener id p) lb.

Definition targetGroup_setAttribute (albFargate : Ref) (key value : string) : M unit :=
  modify albFargate (fun c =>
    match c_resource c with
    | RApplicationLoadBalancedFargateService s =>
        OK (set_resource c (RApplicationLoadBalancedFargateService
              (ApplicationLoadBalancedFargateService.targetGroup_setAttribute key value s)))
    | _ => Throw (NotA "ecs_patterns.ApplicationLoadBalancedFargateService" albFargate)
    end).

(** [metric.createAlarm(this, id, options)] *)
Definition createAlarm (m : Metric.t) (this id : string)
    (o : CreateAlarmOptions) : M Ref :=
  new_ this id (RAlarm (Alarm.mk m o [])).

Definition addAlarmAction (alarm : Ref) (a : AlarmAction) : M unit :=
  modify alarm (fun c =>
    match c_resource c with
    | RAlarm al => OK (set_resource c (RAlarm (Alarm.addAlarmAction a al)))
    | _ => Throw (NotA "cw.Alarm" alarm)
    end).

(** ** lib/bs-ec2app-stack.ts *)

Module BsEc2appStackProps.
Record t := mk {
  stackProps : StackProps.t;
  prodVpc : Ref;
  environment : string;
  logBucket : Ref;
  appKey : Ref
}.
End BsEc2appStackProps.

Module BsEc2appStack.
Import BsEc2appStackProps.

(** The instance: its place in the tree and its public field, which is
    [None] as long as nothing was assigned to it. *)
Record t := mk {
  node : string;
  appServerSecurityGroup : option Ref
}.

Definition constructor (id : string) (props : BsEc2appStackProps.t) : M t :=
  this <- Stack_super id (stackProps props);;

  (* Security Groups *)
  securityGroupForAlb <-
    new_ this "security-group-for-alb"
      (RSecurityGroup (SecurityGroup.create (prodVpc props) (Some false)));;
  addIngressRule securityGroupForAlb anyIpv4 (tcp 80);;;
  addEgressRule securityGroupForAlb anyIpv4 allTcp;;;

  securityGroupForApp <-
    new_ this "security-group-for-app"
      (RSecurityGroup (SecurityGroup.create (prodVpc props) (Some false)));;
  addIngressRule securityGroupForApp (securityGroupPeer securityGroupForAlb) (tcp 80);;;
  addEgressRule securityGroupForApp anyIpv4 allTcp;;;
  let this_appServerSecurityGroup := Some securityGroupForApp in

  (* S3 Bucket for Web Contents *)
  webContentBucket <-
    new_ this "web-content-bucket"
      (RBucket {|
         Bucket.accessControl := Some PRIVATE;
         Bucket.lifecycleRules :=
           [ {| lr_enabled := Some true;
                expiration := Some (Duration.days 2555);
                transitions :=
                  [ {| storageClass := GLACIER;
                       transitionAfter := Duration.days 90 |} ] |} ];
         Bucket.removalPolicy := Some DESTROY;
         Bucket.versioned := Some false;
         Bucket.encryptionKey := Some (appKey props);
         Bucket.encryption := Some KMS;
         Bucket.cors := [];
         Bucket.blockPublicAccess := None;
         Bucket.resourcePolicy := [] |});;

  (* Prevent access without SSL *)
  addToResourcePolicy webContentBucket
    {| PolicyStatement.effect := DENY;
       PolicyStatement.principals := [ AnyPrincipal ];
       PolicyStatement.actions := [ "s3:*" ];
       PolicyStatement.resources := [ Tok (bucketArn webContentBucket) ];
       PolicyStatement.conditions :=
         [ ("Bool", [ ("aws:SecureTransport", "false") ]) ] |};;;

  (* Prevent putting data without encryption *)
  addToResourcePolicy webContentBucket
    {| PolicyStatement.effect := DENY;
       PolicyStatement.principals := [ AnyPrincipal ];
       PolicyStatement.actions := [ "s3:PutObject" ];
       PolicyStatement.resources := [ arnForObjects webContentBucket "*" ];
       PolicyStatement.conditions :=
         [ ("StringNotEquals", [ ("s3:x-amz-server-side-encryption", "AES256") ]) ] |};;;

  (* AppServers (AutoScaling) *)
  ssmInstanceRole <-
    new_ this "ssm-instance-role"
      (RRole {|
         Role.assumedBy := ServicePrincipal "ec2.amazonaws.com";
         Role.path := "/";
         Role.managedPolicies :=
           [ "arn:aws:iam::aws:policy/AmazonSSMManagedInstanceCore";
             "arn:aws:iam::aws:policy/CloudWatchAgentServerPolicy" ] |});;

  let userDataForApp := UserData.forLinux "#!/bin/bash" in
  let userDataForApp :=
    UserData.addCommands
      [ "sudo yum -y install httpd";
        "sudo systemctl enable httpd";
        "sudo systemctl start httpd";
        "touch /var/www/html/index.html";
        "chown apache.apache /var/www/html/index.html" ] userDataForApp in

  fleetForApp <-
    new_ this "auto-scaling-group-app"
      (RAutoScalingGroup {|
         AutoScalingGroup.minCapacity := 2;
         AutoScalingGroup.maxCapacity := 4;
         AutoScalingGroup.vpc := prodVpc props;
         AutoScalingGroup.vpcSubnets := selectSubnets (prodVpc props) "ProdPrivateSubnet";
         AutoScalingGroup.instanceType := (T3, MICRO);
         AutoScalingGroup.machineImage := AMAZON_LINUX_2;
         AutoScalingGroup.securityGroup := securityGroupForApp;
         AutoScalingGroup.role := ssmInstanceRole;
         AutoScalingGroup.userData := userDataForApp;
         AutoScalingGroup.healthCheck := elb (Duration.seconds 60);
         AutoScalingGroup.scalingPolicies := [];
         AutoScalingGroup.targetGroups := [] |});;

  scaleOnCpuUtilization fleetForApp "keepSpareCPU"
    {| targetUtilizationPercent := 50 |};;;

  Tags_add fleetForApp "Environment" (environment props) (Some true);;;
  Tags_add fleetForApp "Name" "AppServer" (Some true);;;
  Tags_add fleetForApp "Role" "FRA_AppServer" (Some true);;;

  (* Application LoadBalancer *)
  albLogBucket <-
    new_ this "alb-log-bucket"
      (RBucket {|
         Bucket.accessControl := Some PRIVATE;
         Bucket.lifecycleRules := [];
         Bucket.removalPolicy := None;
         Bucket.versioned := None;
         Bucket.encryptionKey := None;
         Bucket.encryption := Some S3_MANAGED;
         Bucket.cors := [];
         Bucket.blockPublicAccess := Some BLOCK_ALL;
         Bucket.resourcePolicy := [] |});;

  lbForApp <-
    new_ this "alb-for-app"
      (RApplicationLoadBalancer {|
         ApplicationLoadBalancer.vpc := prodVpc props;
         ApplicationLoadBalancer.internetFacing := true;
         ApplicationLoadBalancer.securityGroup := securityGroupForAlb;
         ApplicationLoadBalancer.vpcSubnets :=
           selectSubnets (prodVpc props) "ProdPublicSubnet";
         ApplicationLoadBalancer.accessLogs := None;
         ApplicationLoadBalancer.listeners := [] |});;
  logAccessLogs lbForApp albLogBucket;;;
  Tags_add lbForApp "Environment" (environment props) None;;;

  tgForApp <-
    new_ this "tg-for-app"
      (RApplicationTargetGroup {|
         ApplicationTargetGroup.vpc := prodVpc props;
         ApplicationTargetGroup.port := 80;
         ApplicationTargetGroup.protocol := HTTP;
         ApplicationTargetGroup.targetType := INSTANCE;
         ApplicationTargetGroup.healthCheck :=
           {| hc_enabled := true; hc_path := "/index.html" |};
         ApplicationTargetGroup.deregistrationDelay := Duration.seconds 60 |});;
  Tags_add tgForApp "Environment" (environment props) None;;;

  (* ALB Listener - TargetGroup *)
  addListener lbForApp "alb-listener-for-app"
    {| l_port := 80; l_open := true; defaultTargetGroups := [ tgForApp ] |};;;

  (* TargetGroup - AutoScalingGroup *)
  attachToApplicationTargetGroup fleetForApp tgForApp;;;

  ret {| node := this; appServerSecurityGroup := this_appServerSecurityGroup |}.

End BsEc2appStack.

(** ** lib/gc-alb-fargate-stack.ts *)

Module GcAlbFargateStackProps.
Record t := mk {
  stackProps : StackProps.t;
  prodVpc : Ref;
  environment : string;
  logBucket : Ref;
  appKey : Ref;
  alarmTopic : Ref
}.
End GcAlbFargateStackProps.

Module GcAlbFargateStack.
Import GcAlbFargateStackProps.

Record t := mk {
  node : string;
  appServerSecurityGroup : option Ref
}.

Definition constructor (id : string) (props : GcAlbFargateStackProps.t) : M t :=
  this <- Stack_super id (stackProps props);;

  (* CORS Allowed Domain *)
  let allowdOrigins := [ "https://example.com"; "https://www.example.com" ] in

  (* Security Groups *)
  securityGroupForAlb <-
    new_ this "SgAlb"
      (RSecurityGroup (SecurityGroup.create (prodVpc props) (Some false)));;
  addIngressRule securityGroupForAlb anyIpv4 (tcp 80);;;
  addEgressRule securityGroupForAlb anyIpv4 allTcp;;;

  (* S3 Bucket for Web Contents *)
  webContentBucket <-
    new_ this "WebBucket"
      (RBucket {|
         Bucket.accessControl := Some PRIVATE;
         Bucket.lifecycleRules :=
           [ {| lr_enabled := Some true;
                expiration := Some (Duration.days 2555);
                transitions :=
                  [ {| storageClass := GLACIER;
                       transitionAfter := Duration.days 90 |} ] |} ];
         Bucket.removalPolicy := Some DESTROY;
         Bucket.versioned := Some false;
         Bucket.encryptionKey := None;
         Bucket.encryption := Some S3_MANAGED;
         Bucket.cors :=
           [ {| allowedOrigins := allowdOrigins;
                allowedMethods := [ GET; HEAD ] |} ];
         Bucket.blockPublicAccess := Some BLOCK_ALL;
         Bucket.resourcePolicy := [] |});;

  (* Prevent access without SSL *)
  addToResourcePolicy webContentBucket
    {| PolicyStatement.effect := DENY;
       PolicyStatement.principals := [ AnyPrincipal ];
       PolicyStatement.actions := [ "s3:*" ];
       PolicyStatement.resources :=
         [ Cat (Tok (bucketArn webContentBucket)) (Lit "/*") ];
       PolicyStatement.conditions :=
         [ ("Bool", [ ("aws:SecureTransport", "false") ]) ] |};;;

  (* CloudFront Distrubution with CORS *)
  distribution <-
    new_ this "Distribution"
      (RDistribution {|
         Distribution.origin := S3Origin webContentBucket;
         Distribution.originRequestPolicy := CORS_S3_ORIGIN |});;

  (* Application LoadBalancer *)
  albLogBucket <-
    new_ this "alb-log-bucket"
      (RBucket {|
         Bucket.accessControl := Some PRIVATE;
         Bucket.lifecycleRules := [];
         Bucket.removalPolicy := None;
         Bucket.versioned := None;
         Bucket.encryptionKey := None;
         Bucket.encryption := Some S3_MANAGED;
         Bucket.cors := [];
         Bucket.blockPublicAccess := Some BLOCK_ALL;
         Bucket.resourcePolicy := [] |});;

  lbForApp <-
    new_ this "Alb"
      (RApplicationLoadBalancer {|
         ApplicationLoadBalancer.vpc := prodVpc props;
         ApplicationLoadBalancer.internetFacing := true;
         ApplicationLoadBalancer.securityGroup := securityGroupForAlb;
         ApplicationLoadBalancer.vpcSubnets := selectSubnets (prodVpc props) "Public";
         ApplicationLoadBalancer.accessLogs := None;
         ApplicationLoadBalancer.listeners := [] |});;
  logAccessLogs lbForApp albLogBucket;;;
  Tags_add lbForApp "Environment" (environment props) None;;;

  (* Fargate Cluster *)
  cluster <-
    new_ this "Cluster"
      (RCluster {| Cluster.vpc := prodVpc props; Cluster.containerInsights := true |});;

  albFargate <-
    new_ this "AlbFargate"
      (RApplicationLoadBalancedFargateService {|
         ApplicationLoadBalancedFargateService.cluster := cluster;
         ApplicationLoadBalancedFargateService.loadBalancer := lbForApp;
         ApplicationLoadBalancedFargateService.taskSubnets :=
           selectSubnets (prodVpc props) "Private";
         ApplicationLoadBalancedFargateService.image :=
           fromRegistry "amazon/amazon-ecs-sample";
         ApplicationLoadBalancedFargateService.targetGroupAttributes := [] |});;

  targetGroup_setAttribute albFargate "deregistration_delay.timeout_seconds" "30";;;

  (* Alarms for ECS *)
  a <- createAlarm
         {| Metric.source := service_metricCpuUtilization albFargate;
            Metric.period := Duration.minutes 1;
            Metric.statistic := AVERAGE |}
         this "FargateCpuUtil"
         {| evaluationPeriods := 3;
            datapointsToAlarm := Some 3%Z;
            threshold := 80;
            comparisonOperator := GREATER_THAN_OR_EQUAL_TO_THRESHOLD;
            actionsEnabled := true |};;
  addAlarmAction a (SnsAction (alarmTopic props));;;

  a <- createAlarm
         {| Metric.source :=
              newMetric "RunningTaskCount" "ECS/ContainerInsights"
                [ ("ClusterName", Tok (clusterName cluster));
                  ("ServiceName", Tok (serviceName albFargate)) ];
            Metric.period := Duration.minutes 1;
            Metric.statistic := AVERAGE |}
         this "RunningTaskCount"
         {| evaluationPeriods := 3;
            datapointsToAlarm := Some 2%Z;
            threshold := 1;
            comparisonOperator := LESS_THAN_THRESHOLD;
            actionsEnabled := true |};;
  addAlarmAction a (SnsAction (alarmTopic props));;;

  (* Alarms for ALB *)
  a <- createAlarm
         {| Metric.source := metricTargetResponseTime lbForApp;
            Metric.period := Duration.minutes 1;
            Metric.statistic := AVERAGE |}
         this "AlbResponseTime"
         {| evaluationPeriods := 3;
            datapointsToAlarm := None;
            threshold := 100;
            comparisonOperator := GREATER_THAN_OR_EQUAL_TO_THRESHOLD;
            actionsEnabled := true |};;
  addAlarmAction a (SnsAction (alarmTopic props));;;

  a <- createAlarm
         {| Metric.source := metricHttpCodeElb lbForApp ELB_4XX_COUNT;
            Metric.period := Duration.minutes 1;
            Metric.statistic := SUM |}
         this "AlbHttp4xx"
         {| evaluationPeriods := 3;
            datapointsToAlarm := None;
            threshold := 10;
            comparisonOperator := GREATER_THAN_OR_EQUAL_TO_THRESHOLD;
            actionsEnabled := true |};;
  addAlarmAction a (SnsAction (alarmTopic props));;;

  a <- createAlarm
         {| Metric.source := metricHttpCodeElb lbForApp ELB_5XX_COUNT;
            Metric.period := Duration.minutes 1;
            Metric.statistic := SUM |}
         this "AlbHttp5xx"
         {| evaluationPeriods := 3;
            datapointsToAlarm := None;
            threshold := 10;
            comparisonOperator := GREATER_THAN_OR_EQUAL_TO_THRESHOLD;
            actionsEnabled := true |};;
  addAlarmAction a (SnsAction (alarmTopic props));;;

  a <- createAlarm
         {| Metric.source := targetGroup_metricHealthyHostCount albFargate;
            Metric.period := Duration.minutes 1;
            Metric.statistic := AVERAGE |}
         this "AlbTgHealthyHostCount"
         {| evaluationPeriods := 3;
            datapointsToAlarm := None;
            threshold := 2;
            comparisonOperator := LESS_THAN_THRESHOLD;
            actionsEnabled := true |};;
  addAlarmAction a (SnsAction (alarmTopic props));;;

  (* WAFv2 for ALB *)
  webAcl <-
    new_ this "WebAcl"
      (RCfnWebACL {|
         CfnWebACL.defaultAction := allow;
         CfnWebACL.name := "GcWebAcl";
         CfnWebACL.scope := "REGIONAL";
         CfnWebACL.visibilityConfig :=
           {| cloudWatchMetricsEnabled := true;
              vc_metricName := "GcWebAcl";
              sampledRequestsEnabled := true |};
         CfnWebACL.rules :=
           [ {| priority := 1;
                overrideAction := count;
                rule_visibilityConfig :=
                  {| sampledRequestsEnabled := true;
                     cloudWatchMetricsEnabled := true;
                     vc_metricName := "AWS-AWSManagedRulesCommonRuleSet" |};
                rule_name := "AWSManagedRulesCommonRuleSet";
                statement := managedRuleGroupStatement "AWS" "AWSManagedRulesCommonRuleSet" |};
             {| priority := 2;
                overrideAction := count;
                rule_visibilityConfig :=
                  {| sampledRequestsEnabled := true;
                     cloudWatchMetricsEnabled := true;
                     vc_metricName := "AWS-AWSManagedRulesKnownBadInputsRuleSet" |};
                rule_name := "AWSManagedRulesKnownBadInputsRuleSet";
                statement := managedRuleGroupStatement "AWS" "AWSManagedRulesKnownBadInputsRuleSet" |};
             {| priority := 3;
                overrideAction := count;
                rule_visibilityConfig :=
                  {| sampledRequestsEnabled := true;
                     cloudWatchMetricsEnabled := true;
                     vc_metricName := "AWS-AWSManagedRulesAmazonIpReputationList" |};
                rule_name := "AWSManagedRulesAmazonIpReputationList";
                statement := managedRuleGroupStatement "AWS" "AWSManagedRulesAmazonIpReputationList" |};
             {| priority := 4;
                overrideAction := count;
                rule_visibilityConfig :=
                  {| sampledRequestsEnabled := true;
                     cloudWatchMetricsEnabled := true;
                     vc_metricName := "AWS-AWSManagedRulesLinuxRuleSet" |};
                rule_name := "AWSManagedRulesLinuxRuleSet";
                statement := managedRuleGroupStatement "AWS" "AWSManagedRulesLinuxRuleSet" |};
             {| priority := 5;
                overrideAction := count;
                rule_visibilityConfig :=
                  {| sampledRequestsEnabled := true;
                     cloudWatchMetricsEnabled := true;
                     vc_metricName := "AWS-AWSManagedRulesSQLiRuleSet" |};
                rule_name := "AWSManagedRulesSQLiRuleSet";
                statement := managedRuleGroupStatement "AWS" "AWSManagedRulesSQLiRuleSet" |} ] |});;

  _ <- new_ this "BsWebAclAssociation"
      (RCfnWebACLAssociation {|
         CfnWebACLAssociation.resourceArn := Tok (loadBalancerArn lbForApp);
         CfnWebACLAssociation.webAclArn := Tok (attrArn webAcl) |});;

  (* appServerSecurityGroup is declared and never assigned *)
  ret {| node := this; appServerSecurityGroup := None |}.

End GcAlbFargateStack.

(** ** lib/gc-investigation-instance-stack.ts *)

Module GcInvestigationInstanceStackProps.
Record t := mk {
  stackProps : StackProps.t;
  prodVpc : Ref;
  environment : string
}.
End GcInvestigationInstanceStackProps.

Module GcInvestigationInstanceStack.
Import GcInvestigationInstanceStackProps.

Record t := mk {
  node : string;
  InvestigationInstanceSecurityGroup : option Ref
}.

Definition constructor (id : string)
    (props : GcInvestigationInstanceStackProps.t) : M t :=
  this <- Stack_super id (stackProps props);;

  (* Security Group *)
  securityGroupForEc2 <-
    new_ this "SgEC2" (RSecurityGroup (SecurityGroup.create (prodVpc props) None));;

  (* InstanceProfile *)
  ssmInstanceRole <-
    new_ this "ssm-instance-role"
      (RRole {|
         Role.assumedBy := ServicePrincipal "ec2.amazonaws.com";
         Role.path := "/";
         Role.managedPolicies :=
           [ "arn:aws:iam::aws:policy/AmazonSSMManagedInstanceCore";
             "arn:aws:iam::aws:policy/CloudWatchAgentServerPolicy" ] |});;

  (* UserData *)
  let userData := UserData.forLinux "#!/bin/bash" in
  let userData := UserData.addCommands [ "sudo yum -y install mariadb" ] userData in

  instance <-
    new_ this "Investigation"
      (RInstance {|
         Instance.vpc := prodVpc props;
         Instance.vpcSubnets := selectSubnets (prodVpc props) "Protected";
         Instance.instanceType := (T3, MICRO);
         Instance.machineImage := AMAZON_LINUX_2;
         Instance.securityGroup := securityGroupForEc2;
         Instance.role := ssmInstanceRole;
         Instance.userData := userData |});;

  (* Tag *)
  Tags_add instance "Environment" (environment props) None;;;
  Tags_add instance "Name" "Investigation" None;;;

  (* InvestigationInstanceSecurityGroup is declared and never assigned *)
  ret {| node := this; InvestigationInstanceSecurityGroup := None |}.

End GcInvestigationInstanceStack.

(** ** The application entry file

    The entry file instantiates three stacks whose classes, like the
    parameter file, are not among the sources at hand.  They are taken as
    parameters: the parameter object, the process environment, the classes
    [ITopic] and [IAlarm] of the objects that travel between the stacks, and
    the three constructors, which may do anything to the app or throw.  The
    records below list the fields that the entry file writes and reads. *)

Module AppParameter.
Record t := mk {
  envName : string;
  monitoringNotifyEmail : string;
  monitoringSlackWorkspaceId : string;
  monitoringSlackChannelId : string;
  vpcCidr : string;
  hostedZoneId : string;
  domainName : string;
  albHostName : string;
  cloudFrontHostName : string;
  dashboardName : string
}.
End AppParameter.

Module BLEAEcsAppSampleStackProps.
Record t := mk {
  monitoringNotifyEmail : string;
  monitoringSlackWorkspaceId : string;
  monitoringSlackChannelId : string;
  vpcCidr : string;
  hostedZoneId : string;
  domainName : string;
  albHostName : string;
  tags : list (string * string);
  env : Environment;
  crossRegionReferences : bool
}.
End BLEAEcsAppSampleStackProps.

(** What the entry file reads from the instance. *)
Module BLEAEcsAppSampleStack.
Record t {ITopic IAlarm : Type} := mk {
  alarmTopic : ITopic;
  albFullName : string;
  albTargetGroupName : string;
  albTargetGroupUnhealthyHostCountAlarm : IAlarm;
  ecsClusterName : string;
  ecsServiceName : string;
  ecsScaleOnRequestCount : Z;
  ecsTargetUtilizationPercent : Z;
  dbClusterName : string
}.
Arguments t : clear implicits.
End BLEAEcsAppSampleStack.

Module BLEAEcsFrontendSampleStackProps.
Record t {ITopic : Type} := mk {
  hostedZoneId : string;
  domainName : string;
  albHostName : string;
  cloudFrontHostName : string;
  alarmTopic : ITopic;
  env : Environment;
  crossRegionReferences : bool
}.
Arguments t : clear implicits.
End BLEAEcsFrontendSampleStackProps.

Module BLEAEcsFrontendSampleStack.
Record t := mk {
  distributionId : string
}.
End BLEAEcsFrontendSampleStack.

Module BLEAEcsAppMonitoringSampleStackProps.
Record t {ITopic IAlarm : Type} := mk {
  appEndpoint : string;
  dashboardName : string;
  alarmTopic : ITopic;
  albFullName : string;
  albTargetGroupName : string;
  albTargetGroupUnhealthyHostCountAlarm : IAlarm;
  ecsClusterName : string;
  ecsServiceName : string;
  ecsScaleOnRequestCount : Z;
  ecsTargetUtilizationPercent : Z;
  dbClusterName : string;
  distributionId : string;
  env : Environment;
  crossRegionReferences : bool
}.
Arguments t : clear implicits.
End BLEAEcsAppMonitoringSampleStackProps.

Module Entry.

Section EntryFile.

Variables ITopic IAlarm MonitoringStack : Type.

Variable devParameter : AppParameter.t.
Variable process_env : string -> option string.

Variable new_BLEAEcsAppSampleStack :
  string -> BLEAEcsAppSampleStackProps.t -> M (BLEAEcsAppSampleStack.t ITopic IAlarm).
Variable new_BLEAEcsFrontendSampleStack :
  string -> BLEAEcsFrontendSampleStackProps.t ITopic -> M BLEAEcsFrontendSampleStack.t.
Variable new_BLEAEcsAppMonitoringSampleStack :
  string -> BLEAEcsAppMonitoringSampleStackProps.t ITopic IAlarm -> M MonitoringStack.

Definition ecsappProps : BLEAEcsAppSampleStackProps.t :=
  {| (* from parameter.ts *)
     BLEAEcsAppSampleStackProps.monitoringNotifyEmail :=
       AppParameter.monitoringNotifyEmail devParameter;
     BLEAEcsAppSampleStackProps.monitoringSlackWorkspaceId :=
       AppParameter.monitoringSlackWorkspaceId devParameter;
     BLEAEcsAppSampleStackProps.monitoringSlackChannelId :=
       AppParameter.monitoringSlackChannelId devParameter;
     BLEAEcsAppSampleStackProps.vpcCidr := AppParameter.vpcCidr devParameter;
     BLEAEcsAppSampleStackProps.hostedZoneId := AppParameter.hostedZoneId devParameter;
     BLEAEcsAppSampleStackProps.domainName := AppParameter.domainName devParameter;
     BLEAEcsAppSampleStackProps.albHostName := AppParameter.albHostName devParameter;
     (* props of cdk.Stack *)
     BLEAEcsAppSampleStackProps.tags :=
       [ ("Repository", "aws-samples/baseline-environment-on-aws");
         ("Environment", AppParameter.envName devParameter) ];
     BLEAEcsAppSampleStackProps.env :=
       {| account := process_env "CDK_DEFAULT_ACCOUNT";
          region := process_env "CDK_DEFAULT_REGION" |};
     BLEAEcsAppSampleStackProps.crossRegionReferences := true |}.

Definition frontendProps (ecsapp : BLEAEcsAppSampleStack.t ITopic IAlarm)
  : BLEAEcsFrontendSampleStackProps.t ITopic :=
  {| (* from parameter.ts *)
     BLEAEcsFrontendSampleStackProps.hostedZoneId := AppParameter.hostedZoneId devParameter;
     BLEAEcsFrontendSampleStackProps.domainName := AppParameter.domainName devParameter;
     BLEAEcsFrontendSampleStackProps.albHostName := AppParameter.albHostName devParameter;
     BLEAEcsFrontendSampleStackProps.cloudFrontHostName :=
       AppParameter.cloudFrontHostName devParameter;
     (* from EcsApp stack *)
     BLEAEcsFrontendSampleStackProps.alarmTopic := BLEAEcsAppSampleStack.alarmTopic ecsapp;
     (* props of cdk.Stack *)
     BLEAEcsFrontendSampleStackProps.env :=
       {| account := process_env "CDK_DEFAULT_ACCOUNT";
          region := Some "us-east-1" |};
     BLEAEcsFrontendSampleStackProps.crossRegionReferences := true |}.

Definition monitoringProps (ecsapp : BLEAEcsAppSampleStack.t ITopic IAlarm)
    (frontend : BLEAEcsFrontendSampleStack.t)
  : BLEAEcsAppMonitoringSampleStackProps.t ITopic IAlarm :=
  {| (* from parameter.ts *)
     BLEAEcsAppMonitoringSampleStackProps.appEndpoint :=
       AppParameter.cloudFrontHostName devParameter +:+ "." +:+
       AppParameter.domainName devParameter;
     BLEAEcsAppMonitoringSampleStackProps.dashboardName :=
       AppParameter.dashboardName devParameter;
     (* from EcsApp stack *)
     BLEAEcsAppMonitoringSampleStackProps.alarmTopic :=
       BLEAEcsAppSampleStack.alarmTopic ecsapp;
     BLEAEcsAppMonitoringSampleStackProps.albFullName :=
       BLEAEcsAppSampleStack.albFullName ecsapp;
     BLEAEcsAppMonitoringSampleStackProps.albTargetGroupName :=
       BLEAEcsAppSampleStack.albTargetGroupName ecsapp;
     BLEAEcsAppMonitoringSampleStackProps.albTargetGroupUnhealthyHostCountAlarm :=
       BLEAEcsAppSampleStack.albTargetGroupUnhealthyHostCountAlarm ecsapp;
     BLEAEcsAppMonitoringSampleStackProps.ecsClusterName :=
       BLEAEcsAppSampleStack.ecsClusterName ecsapp;
     BLEAEcsAppMonitoringSampleStackProps.ecsServiceName :=
       BLEAEcsAppSampleStack.ecsServiceName ecsapp;
     BLEAEcsAppMonitoringSampleStackProps.ecsScaleOnRequestCount :=
       BLEAEcsAppSampleStack.ecsScaleOnRequestCount ecsapp;
     BLEAEcsAppMonitoringSampleStackProps.ecsTargetUtilizationPercent :=
       BLEAEcsAppSampleStack.ecsTargetUtilizationPercent ecsapp;
     BLEAEcsAppMonitoringSampleStackProps.dbClusterName :=
       BLEAEcsAppSampleStack.dbClusterName ecsapp;
     (* from Frontend stack *)
     BLEAEcsAppMonitoringSampleStackProps.distributionId :=
       BLEAEcsFrontendSampleStack.distributionId frontend;
     (* props of cdk.Stack *)
     BLEAEcsAppMonitoringSampleStackProps.env :=
       {| account := process_env "CDK_DEFAULT_ACCOUNT";
          region := process_env "CDK_DEFAULT_REGION" |};
     BLEAEcsAppMonitoringSampleStackProps.crossRegionReferences := true |}.

(** The three instances the file creates, in the order of creation. *)
Record Instances := mkInstances {
  ecsapp : BLEAEcsAppSampleStack.t ITopic IAlarm;
  frontend : BLEAEcsFrontendSampleStack.t;
  monitoring : MonitoringStack
}.

(** The body of the file, run on the app that [new App()] returns. *)
Definition main : M Instances :=
  ecsapp <- new_BLEAEcsAppSampleStack "BLEAEcsAppSampleDev" ecsappProps;;
  frontend <-
    new_BLEAEcsFrontendSampleStack "BLEAEcsFrontendSampleDev" (frontendProps ecsapp);;
  monitoring <-
    new_BLEAEcsAppMonitoringSampleStack "BLEAEcsMonitoringSampleDev"
      (monitoringProps ecsapp frontend);;
  ret (mkInstances ecsapp frontend monitoring).

Definition new_App : App := ∅.

End EntryFile.

End Entry.

(** * Observations and sample inputs *)

(** ** Reading a finished stack *)

Definition child_resource (st : StackNode) (id : string) : option Resource :=
  c_resource <$> find_child id (st_children st).

(** The children of a stack as the pairs of construct id and class. *)
Definition skeleton (st : StackNode) : list (string * string) :=
  map (fun c => (c_id c, className (c_resource c))) (st_children st).

(** The ids of the children of one class, in creation order. *)
Definition ids_of_class (cls : string) (st : StackNode) : list string :=
  map fst (List.filter (fun p => String.eqb (snd p) cls) (skeleton st)).

Definition alarms (st : StackNode) : list (string * Alarm.t) :=
  flat_map (fun c =>
    match c_resource c with
    | RAlarm a => [(c_id c, a)]
    | _ => []
    end) (st_children st).

(** The statements of a policy that deny every S3 action to requests that
    do not use secure transport. *)
Definition is_deny_without_ssl (s : PolicyStatement.t) : bool :=
  match PolicyStatement.effect s with
  | DENY =>
      bool_decide (PolicyStatement.actions s = ["s3:*"]) &&
      bool_decide (PolicyStatement.conditions s =
                     [("Bool", [("aws:SecureTransport", "false")])])
  | ALLOW => false
  end.

Definition deny_without_ssl (b : Bucket.t) : list PolicyStatement.t :=
  List.filter is_deny_without_ssl (Bucket.resourcePolicy b).

(** ** Sample inputs

    A small app with one base stack that owns the VPC, the log bucket, the
    key and the alarm topic which the props of the stacks refer to. *)

Definition sample_stackProps : StackProps.t :=
  {| StackProps.description := None;
     StackProps.env :=
       Some {| account := Some "111122223333"; region := Some "ap-northeast-1" |};
     StackProps.stackName := None;
     StackProps.tags := [];
     StackProps.terminationProtection := None |}.

Definition sample_logBucket : Construct :=
  mkConstruct "LogBucket" []
    (RBucket {|
       Bucket.accessControl := Some PRIVATE;
       Bucket.lifecycleRules := [];
       Bucket.removalPolicy := None;
       Bucket.versioned := Some true;
       Bucket.encryptionKey := None;
       Bucket.encryption := Some S3_MANAGED;
       Bucket.cors := [];
       Bucket.blockPublicAccess := Some BLOCK_ALL;
       Bucket.resourcePolicy := [] |}).

Definition sample_app : App :=
  {[ "Base" :=
       mkStackNode sample_stackProps
         [ mkConstruct "ProdVpc" [] RVpc;
           sample_logBucket;
           mkConstruct "AppKey" [] RKey;
           mkConstruct "AlarmTopic" [] RTopic ] ]}.

Definition sample_BsEc2appStackProps : BsEc2appStackProps.t :=
  {| BsEc2appStackProps.stackProps := sample_stackProps;
     BsEc2appStackProps.prodVpc := mkRef "Base" "ProdVpc";
     BsEc2appStackProps.environment := "Development";
     BsEc2appStackProps.logBucket := mkRef "Base" "LogBucket";
     BsEc2appStackProps.appKey := mkRef "Base" "AppKey" |}.

Definition sample_GcAlbFargateStackProps : GcAlbFargateStackProps.t :=
  {| GcAlbFargateStackProps.stackProps := sample_stackProps;
     GcAlbFargateStackProps.prodVpc := mkRef "Base" "ProdVpc";
     GcAlbFargateStackProps.environment := "Development";
     GcAlbFargateStackProps.logBucket := mkRef "Base" "LogBucket";
     GcAlbFargateStackProps.appKey := mkRef "Base" "AppKey";
     GcAlbFargateStackProps.alarmTopic := mkRef "Base" "AlarmTopic" |}.

Definition sample_GcInvestigationInstanceStackProps : GcInvestigationInstanceStackProps.t :=
  {| GcInvestigationInstanceStackProps.stackProps := sample_stackProps;
     GcInvestigationInstanceStackProps.prodVpc := mkRef "Base" "ProdVpc";
     GcInvestigationInstanceStackProps.environment := "Development" |}.

(** Stand-ins for the three stack classes of the entry file: each registers
    its stack under the app; the first creates a topic and exposes it, the
    last returns the props it was given. *)

Definition sample_devParameter : AppParameter.t :=
  {| AppParameter.envName := "Development";
     AppParameter.monitoringNotifyEmail := "notify-monitoring@example.com";
     AppParameter.monitoringSlackWorkspaceId := "TXXXXXXXXXX";
     AppParameter.monitoringSlackChannelId := "CYYYYYYYYYY";
     AppParameter.vpcCidr := "10.100.0.0/16";
     AppParameter.hostedZoneId := "Z00000000000000000000";
     AppParameter.domainName := "example.com";
     AppParameter.albHostName := "alb";
     AppParameter.cloudFrontHostName := "www";
     AppParameter.dashboardName := "BLEA-ECS-App-Sample" |}.

Definition sample_process_env (name : string) : option string :=
  if String.eqb name "CDK_DEFAULT_ACCOUNT" then Some "111122223333"
  else if String.eqb name "CDK_DEFAULT_REGION" then Some "ap-northeast-1"
  else None.

Definition stackProps_of (tags : list (string * string)) (env : Environment)
  : StackProps.t :=
  {| StackProps.description := None;
     StackProps.env := Some env;
     StackProps.stackName := None;
     StackProps.tags := tags;
     StackProps.terminationProtection := None |}.

Definition sample_new_EcsApp (id : string) (props : BLEAEcsAppSampleStackProps.t)
  : M (BLEAEcsAppSampleStack.t Ref Ref) :=
  this <- Stack_super id
            (stackProps_of (BLEAEcsAppSampleStackProps.tags props)
               (BLEAEcsAppSampleStackProps.env props));;
  topic <- new_ this "AlarmTopic" RTopic;;
  ret {| BLEAEcsAppSampleStack.alarmTopic := topic;
         BLEAEcsAppSampleStack.albFullName := "app/alb/0123456789abcdef";
         BLEAEcsAppSampleStack.albTargetGroupName := "targetgroup/tg/0123456789abcdef";
         BLEAEcsAppSampleStack.albTargetGroupUnhealthyHostCountAlarm :=
           mkRef this "UnhealthyHostCount";
         BLEAEcsAppSampleStack.ecsClusterName := "cluster";
         BLEAEcsAppSampleStack.ecsServiceName := "service";
         BLEAEcsAppSampleStack.ecsScaleOnRequestCount := 50;
         BLEAEcsAppSampleStack.ecsTargetUtilizationPercent := 10000;
         BLEAEcsAppSampleStack.dbClusterName := "db" |}.

Definition sample_new_Frontend (id : string)
    (props : BLEAEcsFrontendSampleStackProps.t Ref)
  : M BLEAEcsFrontendSampleStack.t :=
  _ <- Stack_super id (stackProps_of [] (BLEAEcsFrontendSampleStackProps.env props));;
  ret {| BLEAEcsFrontendSampleStack.distributionId := "E2EXAMPLE" |}.

Definition sample_new_Monitoring (id : string)
    (props : BLEAEcsAppMonitoringSampleStackProps.t Ref Ref)
  : M (BLEAEcsAppMonitoringSampleStackProps.t Ref Ref) :=
  _ <- Stack_super id
         (stackProps_of [] (BLEAEcsAppMonitoringSampleStackProps.env props));;
  ret props.

(** ** Further observations on a finished stack *)

(** The children of a stack without their tags. *)
Definition resources (st : StackNode) : list (string * Resource) :=
  map (fun c => (c_id c, c_resource c)) (st_children st).


Definition buckets (st : StackNode) : list (string * Bucket.t) :=
  flat_map (fun c =>
    match c_resource c with
    | RBucket b => [(c_id c, b)]
    | _ => []
    end) (st_children st).





(** The VPC a construct is placed in and the VPC its subnets are selected
    from, with the name of the subnet group. *)
Definition vpcs_of (r : Resource) : list Ref :=
  match r with
  | RSecurityGroup g => [SecurityGroup.vpc g]
  | RInstance i => [Instance.vpc i; sel_vpc (Instance.vpcSubnets i)]
  | RAutoScalingGroup g =>
      [AutoScalingGroup.vpc g; sel_vpc (AutoScalingGroup.vpcSubnets g)]
  | RApplicationLoadBalancer lb =>
      [ApplicationLoadBalancer.vpc lb; sel_vpc (ApplicationLoadBalancer.vpcSubnets lb)]
  | RApplicationTargetGroup tg => [ApplicationTargetGroup.vpc tg]
  | RCluster c => [Cluster.vpc c]
  | RApplicationLoadBalancedFargateService s =>
      [sel_vpc (ApplicationLoadBalancedFargateService.taskSubnets s)]
  | _ => []
  end.

Definition subnetGroups_of (r : Resource) : list string :=
  match r with
  | RInstance i => [subnetGroupName (Instance.vpcSubnets i)]
  | RAutoScalingGroup g => [subnetGroupName (AutoScalingGroup.vpcSubnets g)]
  | RApplicationLoadBalancer lb =>
      [subnetGroupName (ApplicationLoadBalancer.vpcSubnets lb)]
  | RApplicationLoadBalancedFargateService s =>
      [subnetGroupName (ApplicationLoadBalancedFargateService.taskSubnets s)]
  | _ => []
  end.

(** *** The references a construct holds

    Each with the class the holder needs at the other end. *)

Definition token_ref (t : Token) : Ref * string :=
  match t with
  | bucketArn b => (b, "s3.Bucket")
  | loadBalancerArn lb => (lb, "elbv2.ApplicationLoadBalancer")
  | attrArn acl => (acl, "wafv2.CfnWebACL")
  | clusterName c => (c, "ecs.Cluster")
  | serviceName s => (s, "ecs_patterns.ApplicationLoadBalancedFargateService")
  end.

Fixpoint tokens (s : TokStr) : list Token :=
  match s with
  | Lit _ => []
  | Tok t => [t]
  | Cat a b => tokens a ++ tokens b
  end.

Definition tokstr_refs (s : TokStr) : list (Ref * string) :=
  map token_ref (tokens s).

Definition peer_refs (rules : list (Peer * Port)) : list (Ref * string) :=
  flat_map (fun '(peer, _) =>
    match peer with
    | anyIpv4 => []
    | securityGroupPeer sg => [(sg, "ec2.SecurityGroup")]
    end) rules.

Definition metric_refs (m : MetricSource) : list (Ref * string) :=
  match m with
  | service_metricCpuUtilization s =>
      [(s, "ecs_patterns.ApplicationLoadBalancedFargateService")]
  | newMetric _ _ dimensions => flat_map (fun '(_, v) => tokstr_refs v) dimensions
  | metricTargetResponseTime lb => [(lb, "elbv2.ApplicationLoadBalancer")]
  | metricHttpCodeElb lb _ => [(lb, "elbv2.ApplicationLoadBalancer")]
  | targetGroup_metricHealthyHostCount s =>
      [(s, "ecs_patterns.ApplicationLoadBalancedFargateService")]
  end.

Definition option_ref (o : option Ref) (cls : string) : list (Ref * string) :=
  match o with
  | Some r => [(r, cls)]
  | None => []
  end.

Definition refs_of (r : Resource) : list (Ref * string) :=
  match r with
  | RVpc | RKey | RTopic | RRole _ | RCfnWebACL _ => []
  | RSecurityGroup g =>
      (SecurityGroup.vpc g, "ec2.Vpc")
      :: peer_refs (SecurityGroup.ingressRules g)
      ++ peer_refs (SecurityGroup.egressRules g)
  | RBucket b =>
      option_ref (Bucket.encryptionKey b) "kms.Key"
      ++ flat_map (fun s => flat_map tokstr_refs (PolicyStatement.resources s))
           (Bucket.resourcePolicy b)
  | RInstance i =>
      [ (Instance.vpc i, "ec2.Vpc");
        (sel_vpc (Instance.vpcSubnets i), "ec2.Vpc");
        (Instance.securityGroup i, "ec2.SecurityGroup");
        (Instance.role i, "iam.Role") ]
  | RAutoScalingGroup g =>
      [ (AutoScalingGroup.vpc g, "ec2.Vpc");
        (sel_vpc (AutoScalingGroup.vpcSubnets g), "ec2.Vpc");
        (AutoScalingGroup.securityGroup g, "ec2.SecurityGroup");
        (AutoScalingGroup.role g, "iam.Role") ]
      ++ map (fun tg => (tg, "elbv2.ApplicationTargetGroup"))
           (AutoScalingGroup.targetGroups g)
  | RApplicationLoadBalancer lb =>
      [ (ApplicationLoadBalancer.vpc lb, "ec2.Vpc");
        (sel_vpc (ApplicationLoadBalancer.vpcSubnets lb), "ec2.Vpc");
        (ApplicationLoadBalancer.securityGroup lb, "ec2.SecurityGroup") ]
      ++ option_ref (ApplicationLoadBalancer.accessLogs lb) "s3.Bucket"
      ++ flat_map (fun '(_, l) =>
           map (fun tg => (tg, "elbv2.ApplicationTargetGroup")) (defaultTargetGroups l))
           (ApplicationLoadBalancer.listeners lb)
  | RApplicationTargetGroup tg => [ (ApplicationTargetGroup.vpc tg, "ec2.Vpc") ]
  | RDistribution d =>
      match Distribution.origin d with
      | S3Origin b => [ (b, "s3.Bucket") ]
      end
  | RCluster c => [ (Cluster.vpc c, "ec2.Vpc") ]
  | RApplicationLoadBalancedFargateService s =>
      [ (ApplicationLoadBalancedFargateService.cluster s, "ecs.Cluster");
        (ApplicationLoadBalancedFargateService.loadBalancer s,
         "elbv2.ApplicationLoadBalancer");
        (sel_vpc (ApplicationLoadBalancedFargateService.taskSubnets s), "ec2.Vpc") ]
  | RAlarm a =>
      metric_refs (Metric.source (Alarm.metric a))
      ++ map (fun '(SnsAction topic) => (topic, "sns.Topic")) (Alarm.alarmActions a)
  | RCfnWebACLAssociation a =>
      tokstr_refs (CfnWebACLAssociation.resourceArn a)
      ++ tokstr_refs (CfnWebACLAssociation.webAclArn a)
  end.

(** In [app], [r] leads to a construct of class [cls]. *)
Definition resolves_to (app : App) (r : Ref) (cls : string) : Prop :=
  className <$> lookup_resource app r = Some cls.

(** Every reference held by a construct of the stack leads to a construct
    of the class the holder needs. *)
Definition well_referenced (app : App) (st : StackNode) : Prop :=
  Forall (fun c =>
    Forall (fun '(r, cls) => resolves_to app r cls) (refs_of (c_resource c)))
    (st_children st).

(** The managed rule group a rule refers to. *)
Definition ruleGroup (r : Rule) : string :=
  match statement r with
  | managedRuleGroupStatement _ name => name
  end.

Fixpoint increasing (l : list Z) : bool :=
  match l with
  | a :: (b :: _) as l' => (a <? b)%Z && increasing l'
  | _ => true
  end.

(** One instantiation after another in one app. *)
Definition both {A B} (m1 : M A) (m2 : M B) : M (A * B) :=
  a <- m1;; b <- m2;; ret (a, b).

(** * Properties *)

(** ** Running the steps of a constructor *)

Lemma on_stack_insert {A} this (f : StackNode -> Result (A * StackNode)) st (app : App) :
  on_stack this f (<[this := st]> app) =
  match f st with
  | OK (a, st') => OK (a, <[this := st']> app)
  | Throw e => Throw e
  end.
Proof.
  unfold on_stack. rewrite lookup_insert_eq.
  destruct (f st) as [[a st']|e]; [|done].
  by rewrite insert_insert_eq.
Qed.

Lemma bind_on_stack_insert {A B} this (f : StackNode -> Result (A * StackNode))
    (k : A -> M B) st (app : App) :
  bind (on_stack this f) k (<[this := st]> app) =
  match f st with
  | OK (a, st') => k a (<[this := st']> app)
  | Throw e => Throw e
  end.
Proof.
  unfold bind. rewrite on_stack_insert. by destruct (f st) as [[a st']|e].
Qed.

Lemma bind_Stack_super {B} id sp (k : string -> M B) (app : App) :
  app !! id = None ->
  bind (Stack_super id sp) k app = k id (<[id := mkStackNode sp []]> app).
Proof. intros H. unfold bind, Stack_super. by rewrite H. Qed.


(** A step on one stack leaves every other stack of the app as it was. *)
Lemma on_stack_frame {A} this (f : StackNode -> Result (A * StackNode))
    (app app' : App) a other :
  on_stack this f app = OK (a, app') -> other ≠ this -> app' !! other = app !! other.
Proof.
  unfold on_stack. intros Hrun Hne.
  destruct (app !! this) as [st|]; [|discriminate].
  destruct (f st) as [[a' st']|e]; [|discriminate].
  injection Hrun as _ <-. by rewrite lookup_insert_ne.
Qed.

Lemma replace_child_ids c' l :
  map c_id (replace_child c' l) = map c_id l.
Proof.
  induction l as [|c l IH]; [done|]. simpl.
  destruct (String.eqb (c_id c) (c_id c')) eqn:E; simpl.
  - apply String.eqb_eq in E. by rewrite E.
  - by rewrite IH.
Qed.

(** A mutator call neither adds nor removes a construct: the ids of the
    children of the stack stay what they were. *)
Lemma modify_ids r f (app app' : App) st :
  app !! ref_stack r = Some st ->
  modify r f app = OK (tt, app') ->
  exists st', app' !! ref_stack r = Some st' /\
              map c_id (st_children st') = map c_id (st_children st).
Proof.
  unfold modify, on_stack. intros Hst Hrun. rewrite Hst in Hrun.
  destruct (find_child (ref_id r) (st_children st)) as [c|]; [|discriminate].
  destruct (f c) as [c'|e]; [|discriminate].
  injection Hrun as <-. eexists. split; [apply lookup_insert_eq|].
  apply replace_child_ids.
Qed.

Lemma lookup_construct_insert_ne (app : App) id st r :
  ref_stack r ≠ id -> lookup_construct (<[id := st]> app) r = lookup_construct app r.
Proof. intros Hr. unfold lookup_construct. by rewrite lookup_insert_ne. Qed.

Lemma lookup_construct_stack (app : App) id r c :
  app !! id = None -> lookup_construct app r = Some c -> ref_stack r ≠ id.
Proof.
  unfold lookup_construct. intros Hid Hr E. by rewrite E, Hid in Hr.
Qed.

Lemma lookup_construct_free (app : App) id cid :
  app !! id = None -> lookup_construct app (mkRef id cid) = None.
Proof. unfold lookup_construct. cbn. by intros ->. Qed.

Arguments on_stack : simpl never.

Ltac expose_steps :=
  unfold createAlarm, addAlarmAction, targetGroup_setAttribute, addListener,
    logAccessLogs, ApplicationLoadBalancer_call, attachToApplicationTargetGroup,
    scaleOnCpuUtilization, AutoScalingGroup_call, addToResourcePolicy,
    addEgressRule, addIngressRule, SecurityGroup_call, Tags_add, new_, modify.

(** Rewrites [constructor id props app], for an app in which the stack id
    that [H] speaks of is free, into the result of the run. *)
Ltac run_constructor H :=
  unfold BsEc2appStack.constructor, GcAlbFargateStack.constructor,
    GcInvestigationInstanceStack.constructor;
  rewrite (bind_Stack_super _ _ _ _ H); expose_steps;
  repeat (cbn; rewrite bind_on_stack_insert); cbn; unfold ret.

(** Opens [exists this st, constructor id props app = OK (this, _) /\ _]. *)
Ltac built H :=
  do 2 eexists; split; [ run_constructor H; reflexivity | ].


(** ** The web ACL of the Fargate stack *)

(** C1: the web ACL of GcAlbFargateStack allows by default and holds exactly
    the five AWS managed rule groups, named, with priorities 1 to 5 in
    order and override action count; it is the only web ACL of the stack
    and its association points at the ARN of the stack's only application
    load balancer. *)
Theorem C1_web_acl_rules (app : App) (id : string) (props : GcAlbFargateStackProps.t) :
  app !! id = None ->
  exists this st,
    GcAlbFargateStack.constructor id props app = OK (this, <[id := st]> app) /\
    ids_of_class "wafv2.CfnWebACL" st = ["WebAcl"] /\
    ids_of_class "elbv2.ApplicationLoadBalancer" st = ["Alb"] /\
    exists acl,
      child_resource st "WebAcl" = Some (RCfnWebACL acl) /\
      CfnWebACL.defaultAction acl = allow /\
      map (fun r => (priority r, statement r, overrideAction r)) (CfnWebACL.rules acl) =
        [ (1%Z, managedRuleGroupStatement "AWS" "AWSManagedRulesCommonRuleSet", count);
          (2%Z, managedRuleGroupStatement "AWS" "AWSManagedRulesKnownBadInputsRuleSet", count);
          (3%Z, managedRuleGroupStatement "AWS" "AWSManagedRulesAmazonIpReputationList", count);
          (4%Z, managedRuleGroupStatement "AWS" "AWSManagedRulesLinuxRuleSet", count);
          (5%Z, managedRuleGroupStatement "AWS" "AWSManagedRulesSQLiRuleSet", count) ] /\
      child_resource st "BsWebAclAssociation" =
        Some (RCfnWebACLAssociation
                {| CfnWebACLAssociation.resourceArn := Tok (loadBalancerArn (mkRef id "Alb"));
                   CfnWebACLAssociation.webAclArn := Tok (attrArn (mkRef id "WebAcl")) |}).
Proof.
  intros H. built H.
  split; [reflexivity|]. split; [reflexivity|].
  eexists. split; [reflexivity|]. cbn. auto.
Qed.

(** ** The topology of the EC2 application stack *)

(** C2: in BsEc2appStack both security groups are created with
    allowAllOutbound false; the ALB group admits TCP 80 from any IPv4
    address, the app group admits TCP 80 from the ALB group and from nothing
    else; the load balancer has one listener, on port 80, whose default
    target group is the app target group (port 80, HTTP, instance targets),
    and the auto scaling group is attached to that target group. *)
Theorem C2_ec2app_topology (app : App) (id : string) (props : BsEc2appStackProps.t) :
  app !! id = None ->
  exists this st,
    BsEc2appStack.constructor id props app = OK (this, <[id := st]> app) /\
    ids_of_class "ec2.SecurityGroup" st =
      ["security-group-for-alb"; "security-group-for-app"] /\
    exists sgAlb sgApp lb tg asg,
      child_resource st "security-group-for-alb" = Some (RSecurityGroup sgAlb) /\
      child_resource st "security-group-for-app" = Some (RSecurityGroup sgApp) /\
      child_resource st "alb-for-app" = Some (RApplicationLoadBalancer lb) /\
      child_resource st "tg-for-app" = Some (RApplicationTargetGroup tg) /\
      child_resource st "auto-scaling-group-app" = Some (RAutoScalingGroup asg) /\
      SecurityGroup.allowAllOutbound sgAlb = Some false /\
      SecurityGroup.allowAllOutbound sgApp = Some false /\
      SecurityGroup.ingressRules sgAlb = [(anyIpv4, tcp 80)] /\
      SecurityGroup.ingressRules sgApp =
        [(securityGroupPeer (mkRef id "security-group-for-alb"), tcp 80)] /\
      ApplicationLoadBalancer.securityGroup lb = mkRef id "security-group-for-alb" /\
      ApplicationLoadBalancer.listeners lb =
        [("alb-listener-for-app",
          {| l_port := 80; l_open := true;
             defaultTargetGroups := [mkRef id "tg-for-app"] |})] /\
      ApplicationTargetGroup.port tg = 80%Z /\
      ApplicationTargetGroup.protocol tg = HTTP /\
      ApplicationTargetGroup.targetType tg = INSTANCE /\
      AutoScalingGroup.securityGroup asg = mkRef id "security-group-for-app" /\
      AutoScalingGroup.targetGroups asg = [mkRef id "tg-for-app"].
Proof.
  intros H. built H.
  split; [reflexivity|].
  do 5 eexists. repeat (split; [reflexivity|]). reflexivity.
Qed.

(** ** The alarms of the Fargate stack *)

(** C3: GcAlbFargateStack creates exactly six alarms, with the metrics,
    thresholds, comparison operators, evaluation periods and datapoints
    listed; every metric has a period of one minute, and every alarm has
    exactly one action, the SNS action on [props.alarmTopic]. *)
Theorem C3_fargate_alarms (app : App) (id : string) (props : GcAlbFargateStackProps.t) :
  app !! id = None ->
  exists this st,
    GcAlbFargateStack.constructor id props app = OK (this, <[id := st]> app) /\
    ids_of_class "cw.Alarm" st = map fst (alarms st) /\
    map (fun '(i, a) => (i, Metric.source (Alarm.metric a), Alarm.options a)) (alarms st) =
      [ ("FargateCpuUtil",
         service_metricCpuUtilization (mkRef id "AlbFargate"),
         {| evaluationPeriods := 3; datapointsToAlarm := Some 3%Z; threshold := 80;
            comparisonOperator := GREATER_THAN_OR_EQUAL_TO_THRESHOLD;
            actionsEnabled := true |});
        ("RunningTaskCount",
         newMetric "RunningTaskCount" "ECS/ContainerInsights"
           [ ("ClusterName", Tok (clusterName (mkRef id "Cluster")));
             ("ServiceName", Tok (serviceName (mkRef id "AlbFargate"))) ],
         {| evaluationPeriods := 3; datapointsToAlarm := Some 2%Z; threshold := 1;
            comparisonOperator := LESS_THAN_THRESHOLD;
            actionsEnabled := true |});
        ("AlbResponseTime",
         metricTargetResponseTime (mkRef id "Alb"),
         {| evaluationPeriods := 3; datapointsToAlarm := None; threshold := 100;
            comparisonOperator := GREATER_THAN_OR_EQUAL_TO_THRESHOLD;
            actionsEnabled := true |});
        ("AlbHttp4xx",
         metricHttpCodeElb (mkRef id "Alb") ELB_4XX_COUNT,
         {| evaluationPeriods := 3; datapointsToAlarm := None; threshold := 10;
            comparisonOperator := GREATER_THAN_OR_EQUAL_TO_THRESHOLD;
            actionsEnabled := true |});
        ("AlbHttp5xx",
         metricHttpCodeElb (mkRef id "Alb") ELB_5XX_COUNT,
         {| evaluationPeriods := 3; datapointsToAlarm := None; threshold := 10;
            comparisonOperator := GREATER_THAN_OR_EQUAL_TO_THRESHOLD;
            actionsEnabled := true |});
        ("AlbTgHealthyHostCount",
         targetGroup_metricHealthyHostCount (mkRef id "AlbFargate"),
         {| evaluationPeriods := 3; datapointsToAlarm := None; threshold := 2;
            comparisonOperator := LESS_THAN_THRESHOLD;
            actionsEnabled := true |}) ] /\
    Forall (fun '(_, a) =>
              Duration.toSeconds (Metric.period (Alarm.metric a)) = 60%Z /\
              Metric.period (Alarm.metric a) = Duration.minutes 1 /\
              Alarm.alarmActions a = [SnsAction (GcAlbFargateStackProps.alarmTopic props)])
           (alarms st).
Proof.
  intros H. built H.
  split; [reflexivity|]. split; [reflexivity|].
  cbn. repeat constructor.
Qed.

(** ** The shape of the three stacks *)

Lemma BsEc2appStack_skeleton (app : App) id props :
  app !! id = None ->
  exists this st,
    BsEc2appStack.constructor id props app = OK (this, <[id := st]> app) /\
    skeleton st =
      [ ("security-group-for-alb", "ec2.SecurityGroup");
        ("security-group-for-app", "ec2.SecurityGroup");
        ("web-content-bucket", "s3.Bucket");
        ("ssm-instance-role", "iam.Role");
        ("auto-scaling-group-app", "autoscaling.AutoScalingGroup");
        ("alb-log-bucket", "s3.Bucket");
        ("alb-for-app", "elbv2.ApplicationLoadBalancer");
        ("tg-for-app", "elbv2.ApplicationTargetGroup") ].
Proof. intros H. built H. reflexivity. Qed.

Lemma GcAlbFargateStack_skeleton (app : App) id props :
  app !! id = None ->
  exists this st,
    GcAlbFargateStack.constructor id props app = OK (this, <[id := st]> app) /\
    skeleton st =
      [ ("SgAlb", "ec2.SecurityGroup");
        ("WebBucket", "s3.Bucket");
        ("Distribution", "cloudfront.Distribution");
        ("alb-log-bucket", "s3.Bucket");
        ("Alb", "elbv2.ApplicationLoadBalancer");
        ("Cluster", "ecs.Cluster");
        ("AlbFargate", "ecs_patterns.ApplicationLoadBalancedFargateService");
        ("FargateCpuUtil", "cw.Alarm");
        ("RunningTaskCount", "cw.Alarm");
        ("AlbResponseTime", "cw.Alarm");
        ("AlbHttp4xx", "cw.Alarm");
        ("AlbHttp5xx", "cw.Alarm");
        ("AlbTgHealthyHostCount", "cw.Alarm");
        ("WebAcl", "wafv2.CfnWebACL");
        ("BsWebAclAssociation", "wafv2.CfnWebACLAssociation") ].
Proof. intros H. built H. reflexivity. Qed.

Lemma GcInvestigationInstanceStack_skeleton (app : App) id props :
  app !! id = None ->
  exists this st,
    GcInvestigationInstanceStack.constructor id props app = OK (this, <[id := st]> app) /\
    skeleton st =
      [ ("SgEC2", "ec2.SecurityGroup");
        ("ssm-instance-role", "iam.Role");
        ("Investigation", "ec2.Instance") ].
Proof. intros H. built H. reflexivity. Qed.

(** C5: each of the three constructors creates the same children, with the
    same ids and of the same classes, whatever the props (and whatever the
    app and the stack id): two runs on any two props yield stacks with one
    and the same skeleton. *)
Theorem C5_fixed_children (app1 app2 : App) (id1 id2 : string)
    (b1 b2 : BsEc2appStackProps.t) (g1 g2 : GcAlbFargateStackProps.t)
    (i1 i2 : GcInvestigationInstanceStackProps.t) :
  app1 !! id1 = None ->
  app2 !! id2 = None ->
  (exists t1 st1 t2 st2,
     BsEc2appStack.constructor id1 b1 app1 = OK (t1, <[id1 := st1]> app1) /\
     BsEc2appStack.constructor id2 b2 app2 = OK (t2, <[id2 := st2]> app2) /\
     skeleton st1 = skeleton st2) /\
  (exists t1 st1 t2 st2,
     GcAlbFargateStack.constructor id1 g1 app1 = OK (t1, <[id1 := st1]> app1) /\
     GcAlbFargateStack.constructor id2 g2 app2 = OK (t2, <[id2 := st2]> app2) /\
     skeleton st1 = skeleton st2) /\
  (exists t1 st1 t2 st2,
     GcInvestigationInstanceStack.constructor id1 i1 app1 = OK (t1, <[id1 := st1]> app1) /\
     GcInvestigationInstanceStack.constructor id2 i2 app2 = OK (t2, <[id2 := st2]> app2) /\
     skeleton st1 = skeleton st2).
Proof.
  intros H1 H2. repeat split.
  - destruct (BsEc2appStack_skeleton app1 id1 b1 H1) as (t1 & st1 & R1 & S1).
    destruct (BsEc2appStack_skeleton app2 id2 b2 H2) as (t2 & st2 & R2 & S2).
    exists t1, st1, t2, st2. repeat split; [done..|congruence].
  - destruct (GcAlbFargateStack_skeleton app1 id1 g1 H1) as (t1 & st1 & R1 & S1).
    destruct (GcAlbFargateStack_skeleton app2 id2 g2 H2) as (t2 & st2 & R2 & S2).
    exists t1, st1, t2, st2. repeat split; [done..|congruence].
  - destruct (GcInvestigationInstanceStack_skeleton app1 id1 i1 H1) as (t1 & st1 & R1 & S1).
    destruct (GcInvestigationInstanceStack_skeleton app2 id2 i2 H2) as (t2 & st2 & R2 & S2).
    exists t1, st1, t2, st2. repeat split; [done..|congruence].
Qed.

(** ** Determinism and frame *)

(** C6: a construction depends on its inputs only and writes its own stack
    only.  Run from equal id and props on any two apps in which the id is
    free, a constructor returns the same instance and builds the same stack
    node; in each app that node is added under the id and every other stack
    of the app is left as it was. *)
Theorem C6_deterministic_frame (app1 app2 : App) (id : string)
    (b : BsEc2appStackProps.t) (g : GcAlbFargateStackProps.t)
    (i : GcInvestigationInstanceStackProps.t) :
  app1 !! id = None ->
  app2 !! id = None ->
  (exists this st,
     BsEc2appStack.constructor id b app1 = OK (this, <[id := st]> app1) /\
     BsEc2appStack.constructor id b app2 = OK (this, <[id := st]> app2) /\
     forall r, ref_stack r ≠ id ->
       lookup_construct (<[id := st]> app1) r = lookup_construct app1 r) /\
  (exists this st,
     GcAlbFargateStack.constructor id g app1 = OK (this, <[id := st]> app1) /\
     GcAlbFargateStack.constructor id g app2 = OK (this, <[id := st]> app2) /\
     forall r, ref_stack r ≠ id ->
       lookup_construct (<[id := st]> app1) r = lookup_construct app1 r) /\
  (exists this st,
     GcInvestigationInstanceStack.constructor id i app1 = OK (this, <[id := st]> app1) /\
     GcInvestigationInstanceStack.constructor id i app2 = OK (this, <[id := st]> app2) /\
     forall r, ref_stack r ≠ id ->
       lookup_construct (<[id := st]> app1) r = lookup_construct app1 r).
Proof.
  intros H1 H2. split; [|split].
  - built H1. split; [run_constructor H2; reflexivity|].
    intros r Hr. by apply lookup_construct_insert_ne.
  - built H1. split; [run_constructor H2; reflexivity|].
    intros r Hr. by apply lookup_construct_insert_ne.
  - built H1. split; [run_constructor H2; reflexivity|].
    intros r Hr. by apply lookup_construct_insert_ne.
Qed.

(** ** The web-content buckets *)

(** C7: in BsEc2appStack and in GcAlbFargateStack the web-content bucket is
    private, not versioned, removed on destroy, and has exactly one
    lifecycle rule: enabled, transition to Glacier after 90 days, expiration
    after 2555 days. *)
Theorem C7_web_content_bucket (app : App) (id : string)
    (b : BsEc2appStackProps.t) (g : GcAlbFargateStackProps.t) :
  app !! id = None ->
  (exists this st bucket,
     BsEc2appStack.constructor id b app = OK (this, <[id := st]> app) /\
     child_resource st "web-content-bucket" = Some (RBucket bucket) /\
     Bucket.accessControl bucket = Some PRIVATE /\
     Bucket.versioned bucket = Some false /\
     Bucket.removalPolicy bucket = Some DESTROY /\
     Bucket.lifecycleRules bucket =
       [ {| lr_enabled := Some true;
            expiration := Some (Duration.days 2555);
            transitions :=
              [ {| storageClass := GLACIER; transitionAfter := Duration.days 90 |} ] |} ]) /\
  (exists this st bucket,
     GcAlbFargateStack.constructor id g app = OK (this, <[id := st]> app) /\
     child_resource st "WebBucket" = Some (RBucket bucket) /\
     Bucket.accessControl bucket = Some PRIVATE /\
     Bucket.versioned bucket = Some false /\
     Bucket.removalPolicy bucket = Some DESTROY /\
     Bucket.lifecycleRules bucket =
       [ {| lr_enabled := Some true;
            expiration := Some (Duration.days 2555);
            transitions :=
              [ {| storageClass := GLACIER; transitionAfter := Duration.days 90 |} ] |} ]).
Proof.
  intros H. split.
  - do 3 eexists. split; [run_constructor H; reflexivity|].
    split; [reflexivity|]. cbn. auto.
  - do 3 eexists. split; [run_constructor H; reflexivity|].
    split; [reflexivity|]. cbn. auto.
Qed.

(** ** The public security-group fields *)

(** C8: the declared fields [appServerSecurityGroup] of GcAlbFargateStack and
    [InvestigationInstanceSecurityGroup] of GcInvestigationInstanceStack are
    never assigned and are undefined after construction; BsEc2appStack
    assigns its [appServerSecurityGroup], to the security group of the app,
    which is the one the auto scaling group uses. *)
Theorem C8_security_group_fields (app : App) (id : string)
    (b : BsEc2appStackProps.t) (g : GcAlbFargateStackProps.t)
    (i : GcInvestigationInstanceStackProps.t) :
  app !! id = None ->
  (exists this st,
     GcAlbFargateStack.constructor id g app = OK (this, <[id := st]> app) /\
     GcAlbFargateStack.appServerSecurityGroup this = None) /\
  (exists this st,
     GcInvestigationInstanceStack.constructor id i app = OK (this, <[id := st]> app) /\
     GcInvestigationInstanceStack.InvestigationInstanceSecurityGroup this = None) /\
  (exists this st sg asg,
     BsEc2appStack.constructor id b app = OK (this, <[id := st]> app) /\
     BsEc2appStack.appServerSecurityGroup this = Some (mkRef id "security-group-for-app") /\
     lookup_resource (<[id := st]> app) (mkRef id "security-group-for-app") =
       Some (RSecurityGroup sg) /\
     child_resource st "auto-scaling-group-app" = Some (RAutoScalingGroup asg) /\
     Some (AutoScalingGroup.securityGroup asg) = BsEc2appStack.appServerSecurityGroup this).
Proof.
  intros H. repeat split.
  - built H. reflexivity.
  - built H. reflexivity.
  - do 4 eexists. split; [run_constructor H; reflexivity|].
    split; [reflexivity|].
    split; [unfold lookup_resource, lookup_construct; cbn [ref_stack ref_id];
            rewrite lookup_insert_eq; reflexivity|].
    split; reflexivity.
Qed.

(** ** The log bucket of the props *)

(** C9: neither BsEc2appStack nor GcAlbFargateStack reads or touches
    [props.logBucket].  The run is the same whatever reference the props
    carry there, the construct it refers to is in the app afterwards as it
    was before, and the access logs of the load balancer go to the bucket
    [alb-log-bucket], which the constructor creates in its own stack. *)
Theorem C9_log_bucket_untouched (app : App) (id : string)
    (b : BsEc2appStackProps.t) (g : GcAlbFargateStackProps.t)
    (other : Ref) (cb cg : Construct) :
  app !! id = None ->
  lookup_construct app (BsEc2appStackProps.logBucket b) = Some cb ->
  lookup_construct app (GcAlbFargateStackProps.logBucket g) = Some cg ->
  (exists this st lb logs,
     BsEc2appStack.constructor id b app = OK (this, <[id := st]> app) /\
     BsEc2appStack.constructor id
       {| BsEc2appStackProps.stackProps := BsEc2appStackProps.stackProps b;
          BsEc2appStackProps.prodVpc := BsEc2appStackProps.prodVpc b;
          BsEc2appStackProps.environment := BsEc2appStackProps.environment b;
          BsEc2appStackProps.logBucket := other;
          BsEc2appStackProps.appKey := BsEc2appStackProps.appKey b |} app
       = OK (this, <[id := st]> app) /\
     lookup_construct (<[id := st]> app) (BsEc2appStackProps.logBucket b) = Some cb /\
     child_resource st "alb-for-app" = Some (RApplicationLoadBalancer lb) /\
     ApplicationLoadBalancer.accessLogs lb = Some (mkRef id "alb-log-bucket") /\
     lookup_construct app (mkRef id "alb-log-bucket") = None /\
     lookup_resource (<[id := st]> app) (mkRef id "alb-log-bucket") = Some (RBucket logs) /\
     mkRef id "alb-log-bucket" ≠ BsEc2appStackProps.logBucket b) /\
  (exists this st lb logs,
     GcAlbFargateStack.constructor id g app = OK (this, <[id := st]> app) /\
     GcAlbFargateStack.constructor id
       {| GcAlbFargateStackProps.stackProps := GcAlbFargateStackProps.stackProps g;
          GcAlbFargateStackProps.prodVpc := GcAlbFargateStackProps.prodVpc g;
          GcAlbFargateStackProps.environment := GcAlbFargateStackProps.environment g;
          GcAlbFargateStackProps.logBucket := other;
          GcAlbFargateStackProps.appKey := GcAlbFargateStackProps.appKey g;
          GcAlbFargateStackProps.alarmTopic := GcAlbFargateStackProps.alarmTopic g |} app
       = OK (this, <[id := st]> app) /\
     lookup_construct (<[id := st]> app) (GcAlbFargateStackProps.logBucket g) = Some cg /\
     child_resource st "Alb" = Some (RApplicationLoadBalancer lb) /\
     ApplicationLoadBalancer.accessLogs lb = Some (mkRef id "alb-log-bucket") /\
     lookup_construct app (mkRef id "alb-log-bucket") = None /\
     lookup_resource (<[id := st]> app) (mkRef id "alb-log-bucket") = Some (RBucket logs) /\
     mkRef id "alb-log-bucket" ≠ GcAlbFargateStackProps.logBucket g).
Proof.
  intros H Hb Hg.
  pose proof (lookup_construct_stack _ _ _ _ H Hb) as Nb.
  pose proof (lookup_construct_stack _ _ _ _ H Hg) as Ng.
  split.
  - do 4 eexists. split; [run_constructor H; reflexivity|].
    split; [run_constructor H; reflexivity|].
    split; [by rewrite lookup_construct_insert_ne|].
    split; [reflexivity|]. split; [reflexivity|].
    split; [by apply lookup_construct_free|].
    split; [unfold lookup_resource, lookup_construct; cbn [ref_stack ref_id];
            rewrite lookup_insert_eq; reflexivity|].
    intros E. apply Nb. by rewrite <- E.
  - do 4 eexists. split; [run_constructor H; reflexivity|].
    split; [run_constructor H; reflexivity|].
    split; [by rewrite lookup_construct_insert_ne|].
    split; [reflexivity|]. split; [reflexivity|].
    split; [by apply lookup_construct_free|].
    split; [unfold lookup_resource, lookup_construct; cbn [ref_stack ref_id];
            rewrite lookup_insert_eq; reflexivity|].
    intros E. apply Ng. by rewrite <- E.
Qed.

(** ** The deny-without-SSL statements *)

Lemma append_neq (a s : string) : s ≠ "" -> a +:+ s ≠ a.
Proof.
  intros Hs. induction a as [|ch a IH]; simpl.
  - exact Hs.
  - intros [= E]. by apply IH.
Qed.

(** C10: the deny-without-SSL statement of the web-content bucket names one
    resource.  In BsEc2appStack it is the ARN of the bucket, which is no
    ARN of an object of the bucket; in GcAlbFargateStack it is the ARN of
    the bucket followed by [/*], which is not the ARN of the bucket. *)
Theorem C10_deny_without_ssl_resources (app : App) (id : string)
    (b : BsEc2appStackProps.t) (g : GcAlbFargateStackProps.t)
    (env : Token -> string) :
  app !! id = None ->
  (exists this st bucket,
     BsEc2appStack.constructor id b app = OK (this, <[id := st]> app) /\
     child_resource st "web-content-bucket" = Some (RBucket bucket) /\
     map PolicyStatement.resources (deny_without_ssl bucket) =
       [ [ Tok (bucketArn (mkRef id "web-content-bucket")) ] ] /\
     forall r, In r (flat_map PolicyStatement.resources (deny_without_ssl bucket)) ->
       resolve env r = env (bucketArn (mkRef id "web-content-bucket")) /\
       forall keyPattern,
         resolve env r ≠
         resolve env (arnForObjects (mkRef id "web-content-bucket") keyPattern)) /\
  (exists this st bucket,
     GcAlbFargateStack.constructor id g app = OK (this, <[id := st]> app) /\
     child_resource st "WebBucket" = Some (RBucket bucket) /\
     map PolicyStatement.resources (deny_without_ssl bucket) =
       [ [ Cat (Tok (bucketArn (mkRef id "WebBucket"))) (Lit "/*") ] ] /\
     forall r, In r (flat_map PolicyStatement.resources (deny_without_ssl bucket)) ->
       resolve env r = env (bucketArn (mkRef id "WebBucket")) +:+ "/*" /\
       resolve env r = resolve env (arnForObjects (mkRef id "WebBucket") "*") /\
       resolve env r ≠ env (bucketArn (mkRef id "WebBucket"))).
Proof.
  intros H. split.
  - do 3 eexists. split; [run_constructor H; reflexivity|].
    split; [reflexivity|]. split; [reflexivity|].
    intros r [<-|[]]. split; [reflexivity|].
    intros keyPattern E. cbn in E. symmetry in E. by apply append_neq in E.
  - do 3 eexists. split; [run_constructor H; reflexivity|].
    split; [reflexivity|]. split; [reflexivity|].
    intros r [<-|[]]. split; [reflexivity|]. split; [reflexivity|].
    cbn. by apply append_neq.
Qed.

(** ** The wiring of the entry file *)

(** C4: whenever the entry file runs to its end, the three stacks have been
    instantiated in order on the growing app, the frontend stack and the
    monitoring stack have received as [alarmTopic] the [alarmTopic] of the
    ECS application stack instance, and the monitoring stack has received as
    [distributionId] the [distributionId] of the frontend stack instance. *)
Theorem C4_entry_wiring (ITopic IAlarm MonitoringStack : Type)
    (devParameter : AppParameter.t) (process_env : string -> option string)
    (new_EcsApp : string -> BLEAEcsAppSampleStackProps.t ->
                  M (BLEAEcsAppSampleStack.t ITopic IAlarm))
    (new_Frontend : string -> BLEAEcsFrontendSampleStackProps.t ITopic ->
                    M BLEAEcsFrontendSampleStack.t)
    (new_Monitoring : string -> BLEAEcsAppMonitoringSampleStackProps.t ITopic IAlarm ->
                      M MonitoringStack)
    (result : Entry.Instances ITopic IAlarm MonitoringStack) (app' : App) :
  Entry.main ITopic IAlarm MonitoringStack devParameter process_env
    new_EcsApp new_Frontend new_Monitoring Entry.new_App = OK (result, app') ->
  let ecsapp := Entry.ecsapp _ _ _ result in
  let frontend := Entry.frontend _ _ _ result in
  exists (app1 app2 : App) frontendProps monitoringProps,
    new_EcsApp "BLEAEcsAppSampleDev"
      (Entry.ecsappProps devParameter process_env) Entry.new_App = OK (ecsapp, app1) /\
    new_Frontend "BLEAEcsFrontendSampleDev" frontendProps app1 = OK (frontend, app2) /\
    new_Monitoring "BLEAEcsMonitoringSampleDev" monitoringProps app2 =
      OK (Entry.monitoring _ _ _ result, app') /\
    frontendProps = Entry.frontendProps ITopic IAlarm devParameter process_env ecsapp /\
    monitoringProps =
      Entry.monitoringProps ITopic IAlarm devParameter process_env ecsapp frontend /\
    BLEAEcsFrontendSampleStackProps.alarmTopic frontendProps =
      BLEAEcsAppSampleStack.alarmTopic ecsapp /\
    BLEAEcsAppMonitoringSampleStackProps.alarmTopic monitoringProps =
      BLEAEcsAppSampleStack.alarmTopic ecsapp /\
    BLEAEcsAppMonitoringSampleStackProps.distributionId monitoringProps =
      BLEAEcsFrontendSampleStack.distributionId frontend.
Proof.
  unfold Entry.main, bind, ret. intros Hmain.
  destruct (new_EcsApp _ _ _) as [[ecsapp app1]|e] eqn:E1; [|discriminate].
  destruct (new_Frontend _ _ _) as [[frontend app2]|e] eqn:E2; [|discriminate].
  destruct (new_Monitoring _ _ _) as [[monitoring app3]|e] eqn:E3; [|discriminate].
  injection Hmain as <- <-. cbn.
  exists app1, app2. do 2 eexists.
  split; [reflexivity|]. split; [exact E2|]. split; [exact E3|].
  repeat split.
Qed.

(** ** The theorems at the sample inputs *)

Lemma C1_web_acl_rules_witness :
  sample_app !! "GcAlbFargate" = None /\
  exists this st,
    GcAlbFargateStack.constructor "GcAlbFargate" sample_GcAlbFargateStackProps sample_app
      = OK (this, <["GcAlbFargate" := st]> sample_app) /\
    ids_of_class "wafv2.CfnWebACL" st = ["WebAcl"].
Proof.
  assert (Hfree : sample_app !! "GcAlbFargate" = None) by reflexivity.
  split; [exact Hfree|].
  destruct (C1_web_acl_rules sample_app "GcAlbFargate" sample_GcAlbFargateStackProps Hfree)
    as (this & st & Hrun & Hacl & _).
  exists this, st. split; assumption.
Defined.

Lemma C2_ec2app_topology_witness :
  sample_app !! "BsEc2app" = None /\
  exists this st,
    BsEc2appStack.constructor "BsEc2app" sample_BsEc2appStackProps sample_app
      = OK (this, <["BsEc2app" := st]> sample_app) /\
    ids_of_class "ec2.SecurityGroup" st =
      ["security-group-for-alb"; "security-group-for-app"].
Proof.
  assert (Hfree : sample_app !! "BsEc2app" = None) by reflexivity.
  split; [exact Hfree|].
  destruct (C2_ec2app_topology sample_app "BsEc2app" sample_BsEc2appStackProps Hfree)
    as (this & st & Hrun & Hsg & _).
  exists this, st. split; assumption.
Defined.

Lemma C3_fargate_alarms_witness :
  sample_app !! "GcAlbFargate" = None /\
  exists this st,
    GcAlbFargateStack.constructor "GcAlbFargate" sample_GcAlbFargateStackProps sample_app
      = OK (this, <["GcAlbFargate" := st]> sample_app) /\
    Forall (fun '(_, a) => Alarm.alarmActions a = [SnsAction (mkRef "Base" "AlarmTopic")])
      (alarms st).
Proof.
  assert (Hfree : sample_app !! "GcAlbFargate" = None) by reflexivity.
  split; [exact Hfree|].
  destruct (C3_fargate_alarms sample_app "GcAlbFargate" sample_GcAlbFargateStackProps Hfree)
    as (this & st & Hrun & _ & _ & Hall).
  exists this, st. split; [exact Hrun|].
  eapply Forall_impl; [exact Hall|].
  intros [i a] (_ & _ & Hact). exact Hact.
Defined.

Lemma C4_entry_wiring_witness :
  exists result app',
    Entry.main Ref Ref _ sample_devParameter sample_process_env
      sample_new_EcsApp sample_new_Frontend sample_new_Monitoring Entry.new_App
      = OK (result, app') /\
    exists app1 app2 frontendProps monitoringProps,
      sample_new_Frontend "BLEAEcsFrontendSampleDev" frontendProps app1
        = OK (Entry.frontend _ _ _ result, app2) /\
      sample_new_Monitoring "BLEAEcsMonitoringSampleDev" monitoringProps app2
        = OK (Entry.monitoring _ _ _ result, app') /\
      BLEAEcsFrontendSampleStackProps.alarmTopic frontendProps =
        BLEAEcsAppSampleStack.alarmTopic (Entry.ecsapp _ _ _ result) /\
      BLEAEcsAppMonitoringSampleStackProps.alarmTopic monitoringProps =
        BLEAEcsAppSampleStack.alarmTopic (Entry.ecsapp _ _ _ result) /\
      BLEAEcsAppMonitoringSampleStackProps.distributionId monitoringProps =
        BLEAEcsFrontendSampleStack.distributionId (Entry.frontend _ _ _ result).
Proof.
  assert (Hmain : exists result app',
            Entry.main Ref Ref _ sample_devParameter sample_process_env
              sample_new_EcsApp sample_new_Frontend sample_new_Monitoring Entry.new_App
              = OK (result, app')).
  { vm_compute. do 2 eexists. reflexivity. }
  destruct Hmain as (result & app' & Hmain).
  exists result, app'. split; [exact Hmain|].
  destruct (C4_entry_wiring Ref Ref _ sample_devParameter sample_process_env
              sample_new_EcsApp sample_new_Frontend sample_new_Monitoring
              result app' Hmain)
    as (app1 & app2 & fp & mp & _ & H2 & H3 & _ & _ & H6 & H7 & H8).
  exists app1, app2, fp, mp. repeat split; assumption.
Defined.

Lemma C5_fixed_children_witness :
  sample_app !! "Stack" = None /\
  (∅ : App) !! "Other" = None /\
  exists t1 st1 t2 st2,
    BsEc2appStack.constructor "Stack" sample_BsEc2appStackProps sample_app
      = OK (t1, <["Stack" := st1]> sample_app) /\
    BsEc2appStack.constructor "Other"
      {| BsEc2appStackProps.stackProps := sample_stackProps;
         BsEc2appStackProps.prodVpc := mkRef "Net" "Vpc";
         BsEc2appStackProps.environment := "Production";
         BsEc2appStackProps.logBucket := mkRef "Logs" "Bucket";
         BsEc2appStackProps.appKey := mkRef "Keys" "Key" |} ∅
      = OK (t2, <["Other" := st2]> ∅) /\
    skeleton st1 = skeleton st2.
Proof.
  assert (H1 : sample_app !! "Stack" = None) by reflexivity.
  assert (H2 : (∅ : App) !! "Other" = None) by reflexivity.
  split; [exact H1|]. split; [exact H2|].
  exact (proj1 (C5_fixed_children sample_app ∅ "Stack" "Other"
                  sample_BsEc2appStackProps _
                  sample_GcAlbFargateStackProps sample_GcAlbFargateStackProps
                  sample_GcInvestigationInstanceStackProps
                  sample_GcInvestigationInstanceStackProps H1 H2)).
Defined.

Lemma C6_deterministic_frame_witness :
  sample_app !! "Stack" = None /\
  (∅ : App) !! "Stack" = None /\
  exists this st,
    GcAlbFargateStack.constructor "Stack" sample_GcAlbFargateStackProps sample_app
      = OK (this, <["Stack" := st]> sample_app) /\
    GcAlbFargateStack.constructor "Stack" sample_GcAlbFargateStackProps ∅
      = OK (this, <["Stack" := st]> ∅).
Proof.
  assert (H1 : sample_app !! "Stack" = None) by reflexivity.
  assert (H2 : (∅ : App) !! "Stack" = None) by reflexivity.
  split; [exact H1|]. split; [exact H2|].
  destruct (C6_deterministic_frame sample_app ∅ "Stack" sample_BsEc2appStackProps
              sample_GcAlbFargateStackProps sample_GcInvestigationInstanceStackProps
              H1 H2)
    as (_ & (this & st & R1 & R2 & _) & _).
  exists this, st. split; assumption.
Defined.

Lemma C7_web_content_bucket_witness :
  sample_app !! "Stack" = None /\
  exists this st bucket,
    BsEc2appStack.constructor "Stack" sample_BsEc2appStackProps sample_app
      = OK (this, <["Stack" := st]> sample_app) /\
    child_resource st "web-content-bucket" = Some (RBucket bucket) /\
    Bucket.versioned bucket = Some false.
Proof.
  assert (Hfree : sample_app !! "Stack" = None) by reflexivity.
  split; [exact Hfree|].
  destruct (C7_web_content_bucket sample_app "Stack" sample_BsEc2appStackProps
              sample_GcAlbFargateStackProps Hfree)
    as ((this & st & bucket & Hrun & Hb & _ & Hv & _) & _).
  exists this, st, bucket. repeat split; assumption.
Defined.

Lemma C8_security_group_fields_witness :
  sample_app !! "Stack" = None /\
  exists this st,
    GcAlbFargateStack.constructor "Stack" sample_GcAlbFargateStackProps sample_app
      = OK (this, <["Stack" := st]> sample_app) /\
    GcAlbFargateStack.appServerSecurityGroup this = None.
Proof.
  assert (Hfree : sample_app !! "Stack" = None) by reflexivity.
  split; [exact Hfree|].
  exact (proj1 (C8_security_group_fields sample_app "Stack" sample_BsEc2appStackProps
                  sample_GcAlbFargateStackProps
                  sample_GcInvestigationInstanceStackProps Hfree)).
Defined.

Lemma C9_log_bucket_untouched_witness :
  sample_app !! "Stack" = None /\
  lookup_construct sample_app (mkRef "Base" "LogBucket") = Some sample_logBucket /\
  exists this st,
    BsEc2appStack.constructor "Stack" sample_BsEc2appStackProps sample_app
      = OK (this, <["Stack" := st]> sample_app) /\
    lookup_construct (<["Stack" := st]> sample_app) (mkRef "Base" "LogBucket")
      = Some sample_logBucket.
Proof.
  assert (Hfree : sample_app !! "Stack" = None) by reflexivity.
  assert (Hlog : lookup_construct sample_app (mkRef "Base" "LogBucket")
                 = Some sample_logBucket) by reflexivity.
  split; [exact Hfree|]. split; [exact Hlog|].
  destruct (C9_log_bucket_untouched sample_app "Stack" sample_BsEc2appStackProps
              sample_GcAlbFargateStackProps (mkRef "Elsewhere" "Bucket")
              sample_logBucket sample_logBucket Hfree Hlog Hlog)
    as ((this & st & lb & logs & Hrun & _ & Hsame & _) & _).
  exists this, st. split; assumption.
Defined.

Lemma C10_deny_without_ssl_resources_witness :
  sample_app !! "Stack" = None /\
  exists this st bucket,
    GcAlbFargateStack.constructor "Stack" sample_GcAlbFargateStackProps sample_app
      = OK (this, <["Stack" := st]> sample_app) /\
    child_resource st "WebBucket" = Some (RBucket bucket) /\
    map PolicyStatement.resources (deny_without_ssl bucket) =
      [ [ Cat (Tok (bucketArn (mkRef "Stack" "WebBucket"))) (Lit "/*") ] ].
Proof.
  assert (Hfree : sample_app !! "Stack" = None) by reflexivity.
  split; [exact Hfree|].
  destruct (C10_deny_without_ssl_resources sample_app "Stack" sample_BsEc2appStackProps
              sample_GcAlbFargateStackProps (fun _ => "arn:aws:s3:::web") Hfree)
    as (_ & (this & st & bucket & Hrun & Hb & Hres & _)).
  exists this, st, bucket. repeat split; assumption.
Defined.

(** * Further properties *)

(** ** Runs that do not depend on the app *)

Lemma BsEc2appStack_runs id props :
  exists this st, forall app : App,
    app !! id = None ->
    BsEc2appStack.constructor id props app = OK (this, <[id := st]> app).
Proof. do 2 eexists. intros app H. run_constructor H. reflexivity. Qed.

Lemma GcAlbFargateStack_runs id props :
  exists this st, forall app : App,
    app !! id = None ->
    GcAlbFargateStack.constructor id props app = OK (this, <[id := st]> app).
Proof. do 2 eexists. intros app H. run_constructor H. reflexivity. Qed.


Lemma lookup_resource_own (app : App) id st cid :
  lookup_resource (<[id := st]> app) (mkRef id cid) = child_resource st cid.
Proof.
  unfold lookup_resource, lookup_construct, child_resource. cbn [ref_stack ref_id].
  by rewrite lookup_insert_eq.
Qed.

Lemma resolves_to_own (app : App) id st cid cls :
  className <$> child_resource st cid = Some cls ->
  resolves_to (<[id := st]> app) (mkRef id cid) cls.
Proof. unfold resolves_to. by rewrite lookup_resource_own. Qed.

Lemma resolves_to_other (app : App) id st r cls :
  app !! id = None ->
  resolves_to app r cls ->
  resolves_to (<[id := st]> app) r cls.
Proof.
  unfold resolves_to, lookup_resource. intros Hid Hr.
  rewrite lookup_construct_insert_ne; [done|].
  destruct (lookup_construct app r) as [c|] eqn:E; [|discriminate].
  by eapply lookup_construct_stack.
Qed.

(** ** Stack ids *)


(** X2: stacks under different ids do not interfere.  Instantiating
    BsEc2appStack and then GcAlbFargateStack in one app gives the same two
    instances and the same app as instantiating them the other way round. *)
Theorem X2_instantiation_order (app : App) (id1 id2 : string)
    (b : BsEc2appStackProps.t) (g : GcAlbFargateStackProps.t) :
  id1 ≠ id2 ->
  app !! id1 = None ->
  app !! id2 = None ->
  exists t1 t2 st1 st2,
    both (BsEc2appStack.constructor id1 b) (GcAlbFargateStack.constructor id2 g) app
      = OK ((t1, t2), <[id2 := st2]> (<[id1 := st1]> app)) /\
    both (GcAlbFargateStack.constructor id2 g) (BsEc2appStack.constructor id1 b) app
      = OK ((t2, t1), <[id2 := st2]> (<[id1 := st1]> app)) /\
    BsEc2appStack.constructor id1 b app = OK (t1, <[id1 := st1]> app) /\
    GcAlbFargateStack.constructor id2 g app = OK (t2, <[id2 := st2]> app).
Proof.
  intros Hne H1 H2.
  destruct (BsEc2appStack_runs id1 b) as (t1 & st1 & Hb).
  destruct (GcAlbFargateStack_runs id2 g) as (t2 & st2 & Hg).
  exists t1, t2, st1, st2. unfold both, bind, ret.
  split; [|split; [|split]].
  - rewrite (Hb app H1). rewrite Hg; [done|]. by rewrite lookup_insert_ne.
  - rewrite (Hg app H2). rewrite Hb; [|by rewrite lookup_insert_ne].
    by rewrite insert_insert_ne.
  - by apply Hb.
  - by apply Hg.
Qed.

(** ** References *)

Ltac solve_well_referenced Hfree :=
  unfold well_referenced;
  lazymatch goal with
  | |- Forall _ (st_children ?st) =>
      let app' := fresh "app'" in
      let E := fresh "E" in
      remember (<[_ := st]> _) as app' eqn:E;
      repeat match goal with
             | |- True => exact I
             | |- Forall _ [] => apply List.Forall_nil
             | |- Forall _ (_ :: _) => apply List.Forall_cons
             | |- resolves_to _ _ _ =>
                 rewrite E;
                 first [ apply resolves_to_own; reflexivity
                       | apply (resolves_to_other _ _ _ _ _ Hfree); assumption ]
             | |- _ => progress cbn -[resolves_to]
             end
  end.

(** X3: no reference in a BsEc2appStack dangles.  When [props.prodVpc] is a
    VPC and [props.appKey] a key of the app, every reference that a
    construct of the new stack holds leads, in the resulting app, to a
    construct of the class the holder needs. *)
Theorem X3_ec2app_well_referenced (app : App) (id : string)
    (props : BsEc2appStackProps.t) :
  app !! id = None ->
  resolves_to app (BsEc2appStackProps.prodVpc props) "ec2.Vpc" ->
  resolves_to app (BsEc2appStackProps.appKey props) "kms.Key" ->
  exists this st,
    BsEc2appStack.constructor id props app = OK (this, <[id := st]> app) /\
    well_referenced (<[id := st]> app) st.
Proof.
  intros H Hvpc Hkey. built H. solve_well_referenced H.
Qed.

(** X4: no reference in a GcAlbFargateStack dangles, the references of the
    alarms to their metrics' constructs and to [props.alarmTopic]
    included, when [props.prodVpc] is a VPC and [props.alarmTopic] a topic
    of the app. *)
Theorem X4_fargate_well_referenced (app : App) (id : string)
    (props : GcAlbFargateStackProps.t) :
  app !! id = None ->
  resolves_to app (GcAlbFargateStackProps.prodVpc props) "ec2.Vpc" ->
  resolves_to app (GcAlbFargateStackProps.alarmTopic props) "sns.Topic" ->
  exists this st,
    GcAlbFargateStack.constructor id props app = OK (this, <[id := st]> app) /\
    well_referenced (<[id := st]> app) st.
Proof.
  intros H Hvpc Htopic. built H. solve_well_referenced H.
Qed.

(** X5: no reference in a GcInvestigationInstanceStack dangles when
    [props.prodVpc] is a VPC of the app: the instance uses the security
    group and the role of its own stack. *)
Theorem X5_investigation_well_referenced (app : App) (id : string)
    (props : GcInvestigationInstanceStackProps.t) :
  app !! id = None ->
  resolves_to app (GcInvestigationInstanceStackProps.prodVpc props) "ec2.Vpc" ->
  exists this st inst,
    GcInvestigationInstanceStack.constructor id props app = OK (this, <[id := st]> app) /\
    well_referenced (<[id := st]> app) st /\
    child_resource st "Investigation" = Some (RInstance inst) /\
    Instance.securityGroup inst = mkRef id "SgEC2" /\
    Instance.role inst = mkRef id "ssm-instance-role".
Proof.
  intros H Hvpc. do 3 eexists. split; [run_constructor H; reflexivity|].
  split; [solve_well_referenced H|].
  split; [reflexivity|]. split; reflexivity.
Qed.

(** ** What the props reach *)

(** X6: [props.environment] reaches the tags and nothing else.  With any
    other environment string each constructor returns the same instance and
    builds the same constructs with the same properties. *)
Theorem X6_environment_reaches_tags_only (app : App) (id : string)
    (b : BsEc2appStackProps.t) (g : GcAlbFargateStackProps.t)
    (i : GcInvestigationInstanceStackProps.t) (environment' : string) :
  app !! id = None ->
  (exists this st st',
     BsEc2appStack.constructor id b app = OK (this, <[id := st]> app) /\
     BsEc2appStack.constructor id
       {| BsEc2appStackProps.stackProps := BsEc2appStackProps.stackProps b;
          BsEc2appStackProps.prodVpc := BsEc2appStackProps.prodVpc b;
          BsEc2appStackProps.environment := environment';
          BsEc2appStackProps.logBucket := BsEc2appStackProps.logBucket b;
          BsEc2appStackProps.appKey := BsEc2appStackProps.appKey b |} app
       = OK (this, <[id := st']> app) /\
     resources st' = resources st) /\
  (exists this st st',
     GcAlbFargateStack.constructor id g app = OK (this, <[id := st]> app) /\
     GcAlbFargateStack.constructor id
       {| GcAlbFargateStackProps.stackProps := GcAlbFargateStackProps.stackProps g;
          GcAlbFargateStackProps.prodVpc := GcAlbFargateStackProps.prodVpc g;
          GcAlbFargateStackProps.environment := environment';
          GcAlbFargateStackProps.logBucket := GcAlbFargateStackProps.logBucket g;
          GcAlbFargateStackProps.appKey := GcAlbFargateStackProps.appKey g;
          GcAlbFargateStackProps.alarmTopic := GcAlbFargateStackProps.alarmTopic g |} app
       = OK (this, <[id := st']> app) /\
     resources st' = resources st) /\
  (exists this st st',
     GcInvestigationInstanceStack.constructor id i app = OK (this, <[id := st]> app) /\
     GcInvestigationInstanceStack.constructor id
       {| GcInvestigationInstanceStackProps.stackProps :=
            GcInvestigationInstanceStackProps.stackProps i;
          GcInvestigationInstanceStackProps.prodVpc :=
            GcInvestigationInstanceStackProps.prodVpc i;
          GcInvestigationInstanceStackProps.environment := environment' |} app
       = OK (this, <[id := st']> app) /\
     resources st' = resources st).
Proof.
  intros H. split; [|split].
  - do 3 eexists. split; [run_constructor H; reflexivity|].
    split; [run_constructor H; reflexivity|]. reflexivity.
  - do 3 eexists. split; [run_constructor H; reflexivity|].
    split; [run_constructor H; reflexivity|]. reflexivity.
  - do 3 eexists. split; [run_constructor H; reflexivity|].
    split; [run_constructor H; reflexivity|]. reflexivity.
Qed.


(** X8: GcAlbFargateStack does not use [props.appKey].  The run is the same
    with any other key, no bucket of the stack has an encryption key, and
    the bucket that the CloudFront distribution serves is encrypted with
    S3-managed keys. *)
Theorem X8_fargate_ignores_appKey (app : App) (id : string)
    (g : GcAlbFargateStackProps.t) (other : Ref) :
  app !! id = None ->
  exists this st dist origin web,
    GcAlbFargateStack.constructor id g app = OK (this, <[id := st]> app) /\
    GcAlbFargateStack.constructor id
      {| GcAlbFargateStackProps.stackProps := GcAlbFargateStackProps.stackProps g;
         GcAlbFargateStackProps.prodVpc := GcAlbFargateStackProps.prodVpc g;
         GcAlbFargateStackProps.environment := GcAlbFargateStackProps.environment g;
         GcAlbFargateStackProps.logBucket := GcAlbFargateStackProps.logBucket g;
         GcAlbFargateStackProps.appKey := other;
         GcAlbFargateStackProps.alarmTopic := GcAlbFargateStackProps.alarmTopic g |} app
      = OK (this, <[id := st]> app) /\
    Forall (fun '(_, bucket) => Bucket.encryptionKey bucket = None) (buckets st) /\
    child_resource st "Distribution" = Some (RDistribution dist) /\
    Distribution.origin dist = S3Origin origin /\
    lookup_resource (<[id := st]> app) origin = Some (RBucket web) /\
    Bucket.encryption web = Some S3_MANAGED.
Proof.
  intros H. do 5 eexists. split; [run_constructor H; reflexivity|].
  split; [run_constructor H; reflexivity|].
  split; [cbn; repeat constructor|].
  split; [reflexivity|]. split; [reflexivity|].
  split; [rewrite lookup_resource_own; reflexivity|]. reflexivity.
Qed.

(** X9: everything a stack places in a VPC or in subnets goes to
    [props.prodVpc]; the subnet groups asked of it are [ProdPrivateSubnet]
    and [ProdPublicSubnet] in BsEc2appStack, [Public] and [Private] in
    GcAlbFargateStack, and [Protected] in GcInvestigationInstanceStack. *)
Theorem X9_one_vpc (app : App) (id : string)
    (b : BsEc2appStackProps.t) (g : GcAlbFargateStackProps.t)
    (i : GcInvestigationInstanceStackProps.t) :
  app !! id = None ->
  (exists this st,
     BsEc2appStack.constructor id b app = OK (this, <[id := st]> app) /\
     Forall (fun v => v = BsEc2appStackProps.prodVpc b)
       (flat_map (fun c => vpcs_of (c_resource c)) (st_children st)) /\
     flat_map (fun c => subnetGroups_of (c_resource c)) (st_children st) =
       ["ProdPrivateSubnet"; "ProdPublicSubnet"]) /\
  (exists this st,
     GcAlbFargateStack.constructor id g app = OK (this, <[id := st]> app) /\
     Forall (fun v => v = GcAlbFargateStackProps.prodVpc g)
       (flat_map (fun c => vpcs_of (c_resource c)) (st_children st)) /\
     flat_map (fun c => subnetGroups_of (c_resource c)) (st_children st) =
       ["Public"; "Private"]) /\
  (exists this st,
     GcInvestigationInstanceStack.constructor id i app = OK (this, <[id := st]> app) /\
     Forall (fun v => v = GcInvestigationInstanceStackProps.prodVpc i)
       (flat_map (fun c => vpcs_of (c_resource c)) (st_children st)) /\
     flat_map (fun c => subnetGroups_of (c_resource c)) (st_children st) =
       ["Protected"]).
Proof.
  intros H. split; [|split].
  - built H. split; [cbn; repeat constructor|reflexivity].
  - built H. split; [cbn; repeat constructor|reflexivity].
  - built H. split; [cbn; repeat constructor|reflexivity].
Qed.

(** ** Network exposure *)


(** ** Alarms and rules *)

(** X11: every alarm of GcAlbFargateStack has its actions enabled and
    evaluates three periods; where the number of datapoints to alarm is
    given it lies between one and the number of evaluation periods; the
    alarm ids are pairwise distinct. *)
Theorem X11_alarms_well_formed (app : App) (id : string)
    (g : GcAlbFargateStackProps.t) :
  app !! id = None ->
  exists this st,
    GcAlbFargateStack.constructor id g app = OK (this, <[id := st]> app) /\
    Forall (fun '(_, a) =>
              let o := Alarm.options a in
              actionsEnabled o = true /\
              evaluationPeriods o = 3%Z /\
              match datapointsToAlarm o with
              | Some d => (1 <= d <= evaluationPeriods o)%Z
              | None => True
              end)
      (alarms st) /\
    NoDup (map fst (alarms st)).
Proof.
  intros H. built H. split.
  - cbn. repeat (apply List.Forall_cons || apply List.Forall_nil);
      cbn; repeat split; lia.
  - cbn. apply (bool_decide_unpack _). reflexivity.
Qed.

(** X12: the web ACL of GcAlbFargateStack is regional, as an association
    with a load balancer needs; every rule is named after the managed rule
    group it refers to, reports under the metric name [AWS-] followed by
    that name, and has sampling and metrics switched on; rule names are
    pairwise distinct and priorities strictly increase. *)
Theorem X12_web_acl_rules_consistent (app : App) (id : string)
    (g : GcAlbFargateStackProps.t) :
  app !! id = None ->
  exists this st acl,
    GcAlbFargateStack.constructor id g app = OK (this, <[id := st]> app) /\
    child_resource st "WebAcl" = Some (RCfnWebACL acl) /\
    CfnWebACL.scope acl = "REGIONAL" /\
    Forall (fun r =>
              rule_name r = ruleGroup r /\
              vc_metricName (rule_visibilityConfig r) = "AWS-" +:+ rule_name r /\
              sampledRequestsEnabled (rule_visibilityConfig r) = true /\
              cloudWatchMetricsEnabled (rule_visibilityConfig r) = true)
      (CfnWebACL.rules acl) /\
    NoDup (map rule_name (CfnWebACL.rules acl)) /\
    increasing (map priority (CfnWebACL.rules acl)) = true.
Proof.
  intros H. do 3 eexists. split; [run_constructor H; reflexivity|].
  split; [reflexivity|]. split; [reflexivity|].
  split; [cbn; repeat constructor|].
  split; [cbn; apply (bool_decide_unpack _); reflexivity|reflexivity].
Qed.

(** ** Buckets *)

(** X13: in BsEc2appStack and in GcAlbFargateStack the bucket that receives
    the access logs of the load balancer is a bucket of the stack itself
    that is private, blocks all public access, and is encrypted with
    S3-managed keys and not with a KMS key. *)
Theorem X13_access_log_bucket_sse_s3 (app : App) (id : string)
    (b : BsEc2appStackProps.t) (g : GcAlbFargateStackProps.t) :
  app !! id = None ->
  (exists this st lb logsRef logs,
     BsEc2appStack.constructor id b app = OK (this, <[id := st]> app) /\
     child_resource st "alb-for-app" = Some (RApplicationLoadBalancer lb) /\
     ApplicationLoadBalancer.accessLogs lb = Some logsRef /\
     ref_stack logsRef = id /\
     lookup_resource (<[id := st]> app) logsRef = Some (RBucket logs) /\
     Bucket.accessControl logs = Some PRIVATE /\
     Bucket.blockPublicAccess logs = Some BLOCK_ALL /\
     Bucket.encryption logs = Some S3_MANAGED /\
     Bucket.encryptionKey logs = None) /\
  (exists this st lb logsRef logs,
     GcAlbFargateStack.constructor id g app = OK (this, <[id := st]> app) /\
     child_resource st "Alb" = Some (RApplicationLoadBalancer lb) /\
     ApplicationLoadBalancer.accessLogs lb = Some logsRef /\
     ref_stack logsRef = id /\
     lookup_resource (<[id := st]> app) logsRef = Some (RBucket logs) /\
     Bucket.accessControl logs = Some PRIVATE /\
     Bucket.blockPublicAccess logs = Some BLOCK_ALL /\
     Bucket.encryption logs = Some S3_MANAGED /\
     Bucket.encryptionKey logs = None).
Proof.
  intros H. split.
  - do 5 eexists. split; [run_constructor H; reflexivity|].
    split; [reflexivity|]. split; [reflexivity|]. split; [reflexivity|].
    split; [rewrite lookup_resource_own; reflexivity|]. cbn. auto.
  - do 5 eexists. split; [run_constructor H; reflexivity|].
    split; [reflexivity|]. split; [reflexivity|]. split; [reflexivity|].
    split; [rewrite lookup_resource_own; reflexivity|]. cbn. auto.
Qed.


(** ** The entry file *)


(** ** Construct ids *)

(** X16: in each built stack the construct ids are pairwise distinct, and
    looking up the id of any construct of the stack finds that construct. *)
Theorem X16_ids_distinct (app : App) (id : string)
    (b : BsEc2appStackProps.t) (g : GcAlbFargateStackProps.t)
    (i : GcInvestigationInstanceStackProps.t) :
  app !! id = None ->
  (exists this st,
     BsEc2appStack.constructor id b app = OK (this, <[id := st]> app) /\
     NoDup (map c_id (st_children st)) /\
     Forall (fun c => lookup_construct (<[id := st]> app) (mkRef id (c_id c)) = Some c)
       (st_children st)) /\
  (exists this st,
     GcAlbFargateStack.constructor id g app = OK (this, <[id := st]> app) /\
     NoDup (map c_id (st_children st)) /\
     Forall (fun c => lookup_construct (<[id := st]> app) (mkRef id (c_id c)) = Some c)
       (st_children st)) /\
  (exists this st,
     GcInvestigationInstanceStack.constructor id i app = OK (this, <[id := st]> app) /\
     NoDup (map c_id (st_children st)) /\
     Forall (fun c => lookup_construct (<[id := st]> app) (mkRef id (c_id c)) = Some c)
       (st_children st)).
Proof.
  intros H. split; [|split].
  - built H. split; [apply (bool_decide_unpack _); reflexivity|].
    unfold lookup_construct. cbn [ref_stack ref_id]. rewrite lookup_insert_eq.
    cbn. repeat constructor.
  - built H. split; [apply (bool_decide_unpack _); reflexivity|].
    unfold lookup_construct. cbn [ref_stack ref_id]. rewrite lookup_insert_eq.
    cbn. repeat constructor.
  - built H. split; [apply (bool_decide_unpack _); reflexivity|].
    unfold lookup_construct. cbn [ref_stack ref_id]. rewrite lookup_insert_eq.
    cbn. repeat constructor.
Qed.

(** ** Settings that have to match *)

(** X17: in BsEc2appStack the page that the health check of the target
    group asks for is a file that the user data of the instances creates in
    the document root of httpd, after httpd is installed; the auto scaling
    group that runs this user data is attached to that target group and
    takes its health from the load balancer. *)
Theorem X17_health_check_page_exists (app : App) (id : string)
    (b : BsEc2appStackProps.t) :
  app !! id = None ->
  exists this st asg tgRef tg grace before after,
    BsEc2appStack.constructor id b app = OK (this, <[id := st]> app) /\
    child_resource st "auto-scaling-group-app" = Some (RAutoScalingGroup asg) /\
    AutoScalingGroup.targetGroups asg = [tgRef] /\
    lookup_resource (<[id := st]> app) tgRef = Some (RApplicationTargetGroup tg) /\
    hc_enabled (ApplicationTargetGroup.healthCheck tg) = true /\
    AutoScalingGroup.healthCheck asg = elb grace /\
    UserData.shebang (AutoScalingGroup.userData asg) = "#!/bin/bash" /\
    UserData.commands (AutoScalingGroup.userData asg) =
      (before ++
       ("touch /var/www/html" +:+ hc_path (ApplicationTargetGroup.healthCheck tg))
       :: after)%list /\
    In "sudo yum -y install httpd" before /\
    In "sudo systemctl start httpd" before.
Proof.
  intros H. do 3 eexists. exists (mkRef id "tg-for-app"). do 2 eexists.
  exists [ "sudo yum -y install httpd"; "sudo systemctl enable httpd";
           "sudo systemctl start httpd" ].
  eexists.
  split; [run_constructor H; reflexivity|].
  split; [reflexivity|]. split; [reflexivity|].
  split; [rewrite lookup_resource_own; reflexivity|].
  split; [reflexivity|]. split; [reflexivity|]. split; [reflexivity|].
  split; [reflexivity|]. cbn. auto.
Qed.

(** X18: in GcAlbFargateStack the bucket behind the CloudFront distribution
    carries a CORS rule, for GET and HEAD from https origins only, and the
    distribution hands the CORS headers on to it; the bucket is the only
    one of the stack with a CORS rule. *)
Theorem X18_distribution_cors (app : App) (id : string)
    (g : GcAlbFargateStackProps.t) :
  app !! id = None ->
  exists this st dist origin web rule,
    GcAlbFargateStack.constructor id g app = OK (this, <[id := st]> app) /\
    child_resource st "Distribution" = Some (RDistribution dist) /\
    Distribution.origin dist = S3Origin origin /\
    Distribution.originRequestPolicy dist = CORS_S3_ORIGIN /\
    lookup_resource (<[id := st]> app) origin = Some (RBucket web) /\
    Bucket.cors web = [rule] /\
    allowedMethods rule = [GET; HEAD] /\
    Forall (fun o => String.prefix "https://" o = true) (allowedOrigins rule) /\
    Forall (fun '(i, bucket) => Bucket.cors bucket ≠ [] -> mkRef id i = origin)
      (buckets st).
Proof.
  intros H. do 6 eexists. split; [run_constructor H; reflexivity|].
  split; [reflexivity|]. split; [reflexivity|]. split; [reflexivity|].
  split; [rewrite lookup_resource_own; reflexivity|].
  split; [reflexivity|]. split; [reflexivity|].
  split; [cbn; repeat constructor|].
  cbn. repeat (apply List.Forall_cons || apply List.Forall_nil); cbn;
    intros; congruence.
Qed.

Lemma X17_health_check_page_exists_witness :
  sample_app !! "Ec2" = None /\
  exists this st asg,
    BsEc2appStack.constructor "Ec2" sample_BsEc2appStackProps sample_app
      = OK (this, <["Ec2" := st]> sample_app) /\
    child_resource st "auto-scaling-group-app" = Some (RAutoScalingGroup asg) /\
    UserData.shebang (AutoScalingGroup.userData asg) = "#!/bin/bash".
Proof.
  assert (H : sample_app !! "Ec2" = None) by reflexivity.
  split; [exact H|].
  destruct (X17_health_check_page_exists sample_app "Ec2" sample_BsEc2appStackProps H)
    as (this & st & asg & tgRef & tg & grace & before & after
        & Hrun & Hasg & _ & _ & _ & _ & Hshebang & _).
  exists this, st, asg. repeat split; assumption.
Defined.

Lemma X18_distribution_cors_witness :
  sample_app !! "Fargate" = None /\
  exists this st dist,
    GcAlbFargateStack.constructor "Fargate" sample_GcAlbFargateStackProps sample_app
      = OK (this, <["Fargate" := st]> sample_app) /\
    child_resource st "Distribution" = Some (RDistribution dist) /\
    Distribution.originRequestPolicy dist = CORS_S3_ORIGIN.
Proof.
  assert (H : sample_app !! "Fargate" = None) by reflexivity.
  split; [exact H|].
  destruct (X18_distribution_cors sample_app "Fargate" sample_GcAlbFargateStackProps H)
    as (this & st & dist & origin & web & rule & Hrun & Hd & _ & Hp & _).
  exists this, st, dist. repeat split; assumption.
Defined.

(** ** The further properties at the sample inputs *)

Lemma X2_instantiation_order_witness :
  "Ec2" ≠ "Fargate" /\
  sample_app !! "Ec2" = None /\
  sample_app !! "Fargate" = None /\
  exists t1 t2 app',
    both (BsEc2appStack.constructor "Ec2" sample_BsEc2appStackProps)
         (GcAlbFargateStack.constructor "Fargate" sample_GcAlbFargateStackProps)
         sample_app = OK ((t1, t2), app') /\
    both (GcAlbFargateStack.constructor "Fargate" sample_GcAlbFargateStackProps)
         (BsEc2appStack.constructor "Ec2" sample_BsEc2appStackProps)
         sample_app = OK ((t2, t1), app').
Proof.
  assert (Hne : "Ec2" ≠ "Fargate") by discriminate.
  assert (H1 : sample_app !! "Ec2" = None) by reflexivity.
  assert (H2 : sample_app !! "Fargate" = None) by reflexivity.
  split; [exact Hne|]. split; [exact H1|]. split; [exact H2|].
  destruct (X2_instantiation_order sample_app "Ec2" "Fargate"
              sample_BsEc2appStackProps sample_GcAlbFargateStackProps Hne H1 H2)
    as (t1 & t2 & st1 & st2 & R1 & R2 & _).
  exists t1, t2. eexists. split; [exact R1|exact R2].
Defined.

Lemma X3_ec2app_well_referenced_witness :
  sample_app !! "Ec2" = None /\
  resolves_to sample_app (mkRef "Base" "ProdVpc") "ec2.Vpc" /\
  resolves_to sample_app (mkRef "Base" "AppKey") "kms.Key" /\
  exists this st,
    BsEc2appStack.constructor "Ec2" sample_BsEc2appStackProps sample_app
      = OK (this, <["Ec2" := st]> sample_app) /\
    well_referenced (<["Ec2" := st]> sample_app) st.
Proof.
  assert (H : sample_app !! "Ec2" = None) by reflexivity.
  assert (Hvpc : resolves_to sample_app (mkRef "Base" "ProdVpc") "ec2.Vpc") by reflexivity.
  assert (Hkey : resolves_to sample_app (mkRef "Base" "AppKey") "kms.Key") by reflexivity.
  split; [exact H|]. split; [exact Hvpc|]. split; [exact Hkey|].
  exact (X3_ec2app_well_referenced sample_app "Ec2" sample_BsEc2appStackProps H Hvpc Hkey).
Defined.

Lemma X4_fargate_well_referenced_witness :
  sample_app !! "Fargate" = None /\
  resolves_to sample_app (mkRef "Base" "ProdVpc") "ec2.Vpc" /\
  resolves_to sample_app (mkRef "Base" "AlarmTopic") "sns.Topic" /\
  exists this st,
    GcAlbFargateStack.constructor "Fargate" sample_GcAlbFargateStackProps sample_app
      = OK (this, <["Fargate" := st]> sample_app) /\
    well_referenced (<["Fargate" := st]> sample_app) st.
Proof.
  assert (H : sample_app !! "Fargate" = None) by reflexivity.
  assert (Hvpc : resolves_to sample_app (mkRef "Base" "ProdVpc") "ec2.Vpc") by reflexivity.
  assert (Htopic : resolves_to sample_app (mkRef "Base" "AlarmTopic") "sns.Topic")
    by reflexivity.
  split; [exact H|]. split; [exact Hvpc|]. split; [exact Htopic|].
  exact (X4_fargate_well_referenced sample_app "Fargate" sample_GcAlbFargateStackProps
           H Hvpc Htopic).
Defined.

Lemma X5_investigation_well_referenced_witness :
  sample_app !! "Investigation" = None /\
  resolves_to sample_app (mkRef "Base" "ProdVpc") "ec2.Vpc" /\
  exists this st,
    GcInvestigationInstanceStack.constructor "Investigation"
      sample_GcInvestigationInstanceStackProps sample_app
      = OK (this, <["Investigation" := st]> sample_app) /\
    well_referenced (<["Investigation" := st]> sample_app) st.
Proof.
  assert (H : sample_app !! "Investigation" = None) by reflexivity.
  assert (Hvpc : resolves_to sample_app (mkRef "Base" "ProdVpc") "ec2.Vpc") by reflexivity.
  split; [exact H|]. split; [exact Hvpc|].
  destruct (X5_investigation_well_referenced sample_app "Investigation"
              sample_GcInvestigationInstanceStackProps H Hvpc)
    as (this & st & inst & Hrun & Hwf & _).
  exists this, st. split; assumption.
Defined.

Lemma X6_environment_reaches_tags_only_witness :
  sample_app !! "Investigation" = None /\
  exists this st st',
    GcInvestigationInstanceStack.constructor "Investigation"
      sample_GcInvestigationInstanceStackProps sample_app
      = OK (this, <["Investigation" := st]> sample_app) /\
    GcInvestigationInstanceStack.constructor "Investigation"
      {| GcInvestigationInstanceStackProps.stackProps := sample_stackProps;
         GcInvestigationInstanceStackProps.prodVpc := mkRef "Base" "ProdVpc";
         GcInvestigationInstanceStackProps.environment := "Production" |} sample_app
      = OK (this, <["Investigation" := st']> sample_app) /\
    resources st' = resources st.
Proof.
  assert (H : sample_app !! "Investigation" = None) by reflexivity.
  split; [exact H|].
  exact (proj2 (proj2 (X6_environment_reaches_tags_only sample_app "Investigation"
                         sample_BsEc2appStackProps sample_GcAlbFargateStackProps
                         sample_GcInvestigationInstanceStackProps "Production" H))).
Defined.


Lemma X8_fargate_ignores_appKey_witness :
  sample_app !! "Fargate" = None /\
  exists this st,
    GcAlbFargateStack.constructor "Fargate" sample_GcAlbFargateStackProps sample_app
      = OK (this, <["Fargate" := st]> sample_app) /\
    Forall (fun '(_, bucket) => Bucket.encryptionKey bucket = None) (buckets st).
Proof.
  assert (H : sample_app !! "Fargate" = None) by reflexivity.
  split; [exact H|].
  destruct (X8_fargate_ignores_appKey sample_app "Fargate" sample_GcAlbFargateStackProps
              (mkRef "Elsewhere" "Key") H)
    as (this & st & dist & origin & web & Hrun & _ & Hkeys & _).
  exists this, st. split; assumption.
Defined.

Lemma X9_one_vpc_witness :
  sample_app !! "Ec2" = None /\
  exists this st,
    BsEc2appStack.constructor "Ec2" sample_BsEc2appStackProps sample_app
      = OK (this, <["Ec2" := st]> sample_app) /\
    Forall (fun v => v = mkRef "Base" "ProdVpc")
      (flat_map (fun c => vpcs_of (c_resource c)) (st_children st)) /\
    flat_map (fun c => subnetGroups_of (c_resource c)) (st_children st) =
      ["ProdPrivateSubnet"; "ProdPublicSubnet"].
Proof.
  assert (H : sample_app !! "Ec2" = None) by reflexivity.
  split; [exact H|].
  exact (proj1 (X9_one_vpc sample_app "Ec2" sample_BsEc2appStackProps
                  sample_GcAlbFargateStackProps
                  sample_GcInvestigationInstanceStackProps H)).
Defined.


Lemma X11_alarms_well_formed_witness :
  sample_app !! "Fargate" = None /\
  exists this st,
    GcAlbFargateStack.constructor "Fargate" sample_GcAlbFargateStackProps sample_app
      = OK (this, <["Fargate" := st]> sample_app) /\
    NoDup (map fst (alarms st)).
Proof.
  assert (H : sample_app !! "Fargate" = None) by reflexivity.
  split; [exact H|].
  destruct (X11_alarms_well_formed sample_app "Fargate" sample_GcAlbFargateStackProps H)
    as (this & st & Hrun & _ & Hnodup).
  exists this, st. split; assumption.
Defined.

Lemma X12_web_acl_rules_consistent_witness :
  sample_app !! "Fargate" = None /\
  exists this st acl,
    GcAlbFargateStack.constructor "Fargate" sample_GcAlbFargateStackProps sample_app
      = OK (this, <["Fargate" := st]> sample_app) /\
    child_resource st "WebAcl" = Some (RCfnWebACL acl) /\
    CfnWebACL.scope acl = "REGIONAL".
Proof.
  assert (H : sample_app !! "Fargate" = None) by reflexivity.
  split; [exact H|].
  destruct (X12_web_acl_rules_consistent sample_app "Fargate"
              sample_GcAlbFargateStackProps H)
    as (this & st & acl & Hrun & Hacl & Hscope & _).
  exists this, st, acl. repeat split; assumption.
Defined.

Lemma X13_access_log_bucket_sse_s3_witness :
  sample_app !! "Ec2" = None /\
  exists this st lb logsRef logs,
    BsEc2appStack.constructor "Ec2" sample_BsEc2appStackProps sample_app
      = OK (this, <["Ec2" := st]> sample_app) /\
    child_resource st "alb-for-app" = Some (RApplicationLoadBalancer lb) /\
    ApplicationLoadBalancer.accessLogs lb = Some logsRef /\
    lookup_resource (<["Ec2" := st]> sample_app) logsRef = Some (RBucket logs) /\
    Bucket.encryption logs = Some S3_MANAGED.
Proof.
  assert (H : sample_app !! "Ec2" = None) by reflexivity.
  split; [exact H|].
  destruct (X13_access_log_bucket_sse_s3 sample_app "Ec2" sample_BsEc2appStackProps
              sample_GcAlbFargateStackProps H)
    as ((this & st & lb & r & logs & Hrun & Hlb & Hlogs & _ & Hres & _ & _ & Henc & _) & _).
  exists this, st, lb, r, logs. repeat split; assumption.
Defined.


Lemma X16_ids_distinct_witness :
  sample_app !! "Investigation" = None /\
  exists this st,
    GcInvestigationInstanceStack.constructor "Investigation"
      sample_GcInvestigationInstanceStackProps sample_app
      = OK (this, <["Investigation" := st]> sample_app) /\
    NoDup (map c_id (st_children st)).
Proof.
  assert (H : sample_app !! "Investigation" = None) by reflexivity.
  split; [exact H|].
  destruct (X16_ids_distinct sample_app "Investigation" sample_BsEc2appStackProps
              sample_GcAlbFargateStackProps sample_GcInvestigationInstanceStackProps H)
    as (_ & _ & (this & st & Hrun & Hnodup & _)).
  exists this, st. split; assumption.
Defined.
